(** * cronuseo: authorization service, request layer and stores

    A shallow embedding of the Go sources: the role and resource services
    ([internal/role], [internal/resource]), the gRPC check endpoint
    ([internal/check]), the permission HTTP handlers, and the SQL-backed
    group and resource repositories.  Go interfaces are records of
    operations over an explicit store; handlers return an outcome that
    distinguishes a response, a returned error and a run-time panic. *)

From stdpp Require Import gmap strings list.
From Stdlib Require Import Ascii String.

Local Open Scope string_scope.
Local Open Scope list_scope.

(** ** Errors ([internal/util]) *)

Module util.

(** Go's [error] values met in the sources: the three typed engine errors
    (each carries a [Path]), plain [errors.New] strings, and the HTTP
    errors built by [echo.NewHTTPError]; [UnauthorizedError] is the fourth
    kind of the error taxonomy, for a missing or invalid API key. *)
Inductive error : Type :=
  | NotFoundError (Path : string)
  | InvalidInputError (Path : string)
  | AlreadyExistsError (Path : string)
  | UnauthorizedError (Path : string)
  | errorString (s : string)
  | HTTPError (code : nat) (message : string).

Definition StatusOK : nat := 200.
Definition StatusBadRequest : nat := 400.
Definition StatusForbidden : nat := 403.
Definition StatusInternalServerError : nat := 500.

(** Modelled from the spec: [util.HandleError] is not part of the sources.
    The boundary maps [InvalidInput] to 400, an authorization failure to 403
    and anything else from a failed operation to 500; an error that already
    is an HTTP error is passed through. *)
Definition HandleError (e : error) : error :=
  match e with
  | InvalidInputError p => HTTPError StatusBadRequest p
  | UnauthorizedError p => HTTPError StatusForbidden p
  | HTTPError c m => HTTPError c m
  | NotFoundError p => HTTPError StatusInternalServerError p
  | AlreadyExistsError p => HTTPError StatusInternalServerError p
  | errorString s => HTTPError StatusInternalServerError s
  end.

(** What a handler hands back to its framework. *)
Inductive outcome (A : Type) : Type :=
  | Return (a : A)
  | Fail (e : error)
  | Panic (msg : string).
Arguments Return {A} a.
Arguments Fail {A} e.
Arguments Panic {A} msg.

End util.

(** ** gRPC check endpoint ([internal/check/grpc.go]) *)

Module check.
Import util.

Record CheckRequest : Type := {
  Username : string;
  Action : string;
  Resource : string }.

Record GrpcCheckRequest : Type := {
  req_Organization : string;
  req_Username : string;
  req_Action : string;
  req_Resource : string }.

Record GrpcCheckResponse : Type := { Allow : bool }.

(** The [Service] interface, as far as the endpoint uses it. *)
Record Service : Type := {
  Check : string -> CheckRequest -> string -> bool + error }.

(** [metadata.MD] is [map[string][]string]; its [Get] lower-cases the key
    and reads the map, a missing key giving the nil slice. *)
Definition MD : Type := gmap string (list string).

Definition lower_ascii (c : ascii) : ascii :=
  let n := nat_of_ascii c in
  if (65 <=? n)%nat && (n <=? 90)%nat then ascii_of_nat (n + 32) else c.

Fixpoint ToLower (s : string) : string :=
  match s with
  | EmptyString => EmptyString
  | String c r => String (lower_ascii c) (ToLower r)
  end.

Definition MD_Get (md : MD) (k : string) : list string :=
  default [] (md !! ToLower k).

(** [grpcService.Check].  The incoming context either carries metadata or
    does not ([metadata.FromIncomingContext]); [md.Get("API_KEY")[0]]
    indexes the returned slice without a length test. *)
Definition grpc_Check (s : Service) (ctx : option MD) (req : GrpcCheckRequest)
  : outcome GrpcCheckResponse :=
  match ctx with
  | None => Fail (errorString "missing metadata from request")
  | Some md =>
    match MD_Get md "API_KEY" with
    | [] => Panic "index out of range [0] with length 0"
    | apiKey :: _ =>
      let input := {| Username := req_Username req;
                      Action := req_Action req;
                      Resource := req_Resource req |} in
      match Check s (req_Organization req) input apiKey with
      | inr err => Fail (HandleError err)
      | inl allow => Return {| Allow := allow |}
      end
    end
  end.

End check.

(** ** Stored entities ([internal/mongo_entity/organization.go]) *)

Module mongo_entity.

(** [primitive.ObjectID], carried as its hexadecimal rendering. *)
Definition ObjectID : Type := string.
Definition Hex (id : ObjectID) : string := id.
Definition quote : string := String (ascii_of_nat 34) EmptyString.
Definition ObjectID_String (id : ObjectID) : string :=
  "ObjectID(" +:+ quote +:+ id +:+ quote +:+ ")".

Record Permission : Type := {
  Permission_Action : string;
  Permission_Resource : string }.

Record Action : Type := {
  Action_ID : ObjectID;
  Action_Identifier : string;
  Action_DisplayName : string }.

Record Resource : Type := {
  Resource_ID : ObjectID;
  Resource_Identifier : string;
  Resource_DisplayName : string;
  Resource_Type : string;
  Resource_Actions : list Action }.

Record User : Type := {
  User_ID : ObjectID;
  User_Username : string;
  User_Identifier : string;
  User_UserProperties : list (string * string);
  User_Roles : list ObjectID;
  User_Groups : list ObjectID }.

Record Role : Type := {
  Role_ID : ObjectID;
  Role_Identifier : string;
  Role_DisplayName : string;
  Role_Users : list ObjectID;
  Role_Groups : list ObjectID;
  Role_Permissions : list Permission }.

Record Group : Type := {
  Group_ID : ObjectID;
  Group_Identifier : string;
  Group_DisplayName : string;
  Group_Users : list ObjectID;
  Group_Roles : list ObjectID }.

Record Organization : Type := {
  Organization_ID : ObjectID;
  Organization_Identifier : string;
  Organization_DisplayName : string;
  Organization_API_KEY : string;
  Organization_Resources : list Resource;
  Organization_Users : list User;
  Organization_Roles : list Role;
  Organization_Groups : list Group }.

Definition Permission_eqb (p q : Permission) : bool :=
  String.eqb (Permission_Action p) (Permission_Action q)
  && String.eqb (Permission_Resource p) (Permission_Resource q).

Definition mem_id (x : ObjectID) (l : list ObjectID) : bool :=
  existsb (String.eqb x) l.

Definition mem_permission (p : Permission) (l : list Permission) : bool :=
  existsb (Permission_eqb p) l.

End mongo_entity.

(** ** Role service ([internal/role/service.go]) *)

Module role.
Import util mongo_entity.

Record CreateRoleRequest : Type := {
  CreateRoleRequest_Identifier : string;
  CreateRoleRequest_DisplayName : string;
  CreateRoleRequest_Users : list ObjectID }.

Record UpdateRoleRequest : Type := {
  UpdateRoleRequest_DisplayName : option string;
  UpdateRoleRequest_AddedUsers : list ObjectID;
  UpdateRoleRequest_RemovedUser : list ObjectID }.

Record UpdateRole : Type := {
  UpdateRole_DisplayName : option string;
  UpdateRole_AddedUsers : list ObjectID;
  UpdateRole_RemovedUser : list ObjectID }.

Record PatchRolePermissionRequest : Type := {
  Request_AddedPermission : list Permission;
  Request_RemovedPermission : list Permission }.

Record PatchRolePermission : Type := {
  AddedPermission : list Permission;
  RemovedPermission : list Permission }.

(** [validation.Required] on the identifier: the empty string is refused. *)
Definition CreateRoleRequest_Validate (m : CreateRoleRequest) : option error :=
  if String.eqb (CreateRoleRequest_Identifier m) EmptyString
  then Some (errorString "identifier: cannot be blank.")
  else None.

(** The [Repository] interface the service is written against.  A query
    reads the store; a command returns the store it leaves behind together
    with its error, if any.  The existence checks return a flag and an
    error, of which the service reads the flag only. *)
Record Repository (Store : Type) : Type := {
  repo_Get : Store -> string -> string -> Role + error;
  repo_Query : Store -> string -> list Role + error;
  repo_Create : Store -> string -> Role -> Store * option error;
  repo_Update : Store -> string -> string -> UpdateRole -> Store * option error;
  repo_Delete : Store -> string -> string -> Store * option error;
  repo_PatchPermission :
    Store -> string -> string -> PatchRolePermission -> Store * option error;
  CheckRoleExistsByIdentifier : Store -> string -> string -> bool * option error;
  CheckUserExistById : Store -> string -> string -> bool * option error;
  CheckUserAlreadyAssignToRoleById :
    Store -> string -> string -> string -> bool * option error;
  CheckResourceActionExists :
    Store -> string -> string -> string -> bool * option error }.
Arguments repo_Get {Store}.
Arguments repo_Query {Store}.
Arguments repo_Create {Store}.
Arguments repo_Update {Store}.
Arguments repo_Delete {Store}.
Arguments repo_PatchPermission {Store}.
Arguments CheckRoleExistsByIdentifier {Store}.
Arguments CheckUserExistById {Store}.
Arguments CheckUserAlreadyAssignToRoleById {Store}.
Arguments CheckResourceActionExists {Store}.

Section Service.
Context {Store : Type} (repo : Repository Store).

(** [service.Get]: any repository error is reported as [NotFound]. *)
Definition Get (st : Store) (org_id id : string) : Role + error :=
  match repo_Get repo st org_id id with
  | inr _ => inr (NotFoundError "Role")
  | inl role => inl role
  end.

(** A user id the repository does not report as a user of the
    organization, and whether a user is already assigned to a role. *)
Definition missing_user (st : Store) (org_id : string) (userId : ObjectID)
  : Prop :=
  fst (CheckUserExistById repo st org_id (Hex userId)) = false.

Definition assigned (st : Store) (org_id id : string) (userId : ObjectID)
  : bool :=
  fst (CheckUserAlreadyAssignToRoleById repo st org_id id (Hex userId)).

(** The existence loop over user ids shared by [Create] and [Update]; it
    stops at the first id the repository does not know. *)
Fixpoint check_users (st : Store) (org_id : string) (msg : string)
    (users : list ObjectID) : option error :=
  match users with
  | [] => None
  | userId :: rest =>
    if fst (CheckUserExistById repo st org_id (Hex userId))
    then check_users st org_id msg rest
    else Some (InvalidInputError (msg +:+ ObjectID_String userId))
  end.

(** [service.Create]; [roleId] is the identifier [primitive.NewObjectID]
    hands out. *)
Definition Create (st : Store) (org_id : string) (req : CreateRoleRequest)
    (roleId : ObjectID) : Store * (Role + error) :=
  match CreateRoleRequest_Validate req with
  | Some _ => (st, inr (InvalidInputError "Invalid input for role."))
  | None =>
    if fst (CheckRoleExistsByIdentifier repo st org_id
              (CreateRoleRequest_Identifier req))
    then (st, inr (AlreadyExistsError
                     ("Role : " +:+ CreateRoleRequest_Identifier req
                      +:+ " already exists.")))
    else
      match check_users st org_id "Invalid user id "
              (CreateRoleRequest_Users req) with
      | Some e => (st, inr e)
      | None =>
        let '(st', err) :=
          repo_Create repo st org_id
            {| Role_ID := roleId;
               Role_Identifier := CreateRoleRequest_Identifier req;
               Role_DisplayName := CreateRoleRequest_DisplayName req;
               Role_Users := CreateRoleRequest_Users req;
               Role_Groups := [];
               Role_Permissions := [] |} in
        match err with
        | Some e => (st', inr e)
        | None => (st', Get st' org_id (Hex roleId))
        end
      end
  end.

(** The two filters of [service.Update]: users to add that are not yet
    assigned, users to remove that are assigned. *)
Fixpoint added_users (st : Store) (org_id id : string)
    (users : list ObjectID) : list ObjectID :=
  match users with
  | [] => []
  | userId :: rest =>
    let already_added := assigned st org_id id userId in
    if negb already_added
    then userId :: added_users st org_id id rest
    else added_users st org_id id rest
  end.

Fixpoint removed_roles (st : Store) (org_id id : string)
    (users : list ObjectID) : list ObjectID :=
  match users with
  | [] => []
  | userId :: rest =>
    let already_added := assigned st org_id id userId in
    if already_added
    then userId :: removed_roles st org_id id rest
    else removed_roles st org_id id rest
  end.

(** [service.Update]. *)
Definition Update (st : Store) (org_id id : string) (req : UpdateRoleRequest)
  : Store * (Role + error) :=
  match Get st org_id id with
  | inr _ => (st, inr (NotFoundError ("Role " +:+ id +:+ " not exists.")))
  | inl _ =>
    match check_users st org_id "Invalid role id "
            (UpdateRoleRequest_AddedUsers req) with
    | Some e => (st, inr e)
    | None =>
      match check_users st org_id "Invalid role id "
              (UpdateRoleRequest_RemovedUser req) with
      | Some e => (st, inr e)
      | None =>
        let '(st', err) :=
          repo_Update repo st org_id id
            {| UpdateRole_DisplayName := UpdateRoleRequest_DisplayName req;
               UpdateRole_AddedUsers :=
                 added_users st org_id id (UpdateRoleRequest_AddedUsers req);
               UpdateRole_RemovedUser :=
                 removed_roles st org_id id (UpdateRoleRequest_RemovedUser req) |} in
        match err with
        | Some e => (st', inr e)
        | None =>
          match repo_Get repo st' org_id id with
          | inr _ => (st', inr (NotFoundError ("Role " +:+ id +:+ " not exists.")))
          | inl updatedRole => (st', inl updatedRole)
          end
        end
      end
    end
  end.

(** [service.Delete]. *)
Definition Delete (st : Store) (org_id id : string) : Store * option error :=
  match Get st org_id id with
  | inr _ => (st, Some (NotFoundError ("Resource " +:+ id +:+ " not exists.")))
  | inl _ => repo_Delete repo st org_id id
  end.

(** [service.Query]: the roles of the organization as the repository lists
    them; the filter is not passed on. *)
Definition Query (st : Store) (org_id : string) : list Role + error :=
  match repo_Query repo st org_id with
  | inr err => inr err
  | inl items => inl (map (fun item => item) items)
  end.

(** A pair the repository does not report as a declared action of a
    resource of the organization. *)
Definition undeclared (st : Store) (org_id : string) (p : Permission) : Prop :=
  fst (CheckResourceActionExists repo st org_id
         (Permission_Resource p) (Permission_Action p)) = false.

(** The validation loop of [service.PatchPermission] over the added
    permissions. *)
Fixpoint check_added (st : Store) (org_id : string)
    (added : list Permission) : option error :=
  match added with
  | [] => None
  | permission :: rest =>
    if fst (CheckResourceActionExists repo st org_id
              (Permission_Resource permission) (Permission_Action permission))
    then check_added st org_id rest
    else Some (InvalidInputError
                 ("Invalid permission, Resource : "
                  +:+ Permission_Resource permission
                  +:+ " Action : " +:+ Permission_Action permission))
  end.

(** [service.PatchPermission].  The patch handed to the repository is built
    from [AddedPermission] alone; its [RemovedPermission] field keeps Go's
    zero value, the empty slice. *)
Definition PatchPermission (st : Store) (org_id role_id : string)
    (req : PatchRolePermissionRequest) : Store * option error :=
  match check_added st org_id (Request_AddedPermission req) with
  | Some e => (st, Some e)
  | None =>
    repo_PatchPermission repo st org_id role_id
      {| AddedPermission := Request_AddedPermission req;
         RemovedPermission := [] |}
  end.

End Service.

(** The error [service.PatchPermission] builds for an undeclared pair. *)
Definition invalid_permission (p : Permission) : error :=
  InvalidInputError ("Invalid permission, Resource : " +:+ Permission_Resource p
                     +:+ " Action : " +:+ Permission_Action p).

End role.

(** ** An entity store for the role repository *)

Module store.
Import util mongo_entity role.

(** Organizations by identifier: each tenant owns its document. *)
Abbreviation Store := (gmap string Organization).

Definition no_documents : error := errorString "mongo: no documents in result".

Definition with_Roles (o : Organization) (roles : list Role) : Organization :=
  {| Organization_ID := Organization_ID o;
     Organization_Identifier := Organization_Identifier o;
     Organization_DisplayName := Organization_DisplayName o;
     Organization_API_KEY := Organization_API_KEY o;
     Organization_Resources := Organization_Resources o;
     Organization_Users := Organization_Users o;
     Organization_Roles := roles;
     Organization_Groups := Organization_Groups o |}.

Definition find_role (o : Organization) (id : string) : option Role :=
  find (fun r => String.eqb (Role_ID r) id) (Organization_Roles o).

Definition alter_role (f : Role -> Role) (id : string) (o : Organization)
  : Organization :=
  with_Roles o
    (map (fun r => if String.eqb (Role_ID r) id then f r else r)
         (Organization_Roles o)).

Definition declared (o : Organization) (resource action : string) : bool :=
  existsb (fun r => String.eqb (Resource_Identifier r) resource
                    && existsb (fun a => String.eqb (Action_Identifier a) action)
                               (Resource_Actions r))
          (Organization_Resources o).

(** The permission set after a patch: the additions not yet present are
    appended, then every removed pair is dropped. *)
Definition patch_permissions (perms added removed : list Permission)
  : list Permission :=
  let fresh := filter (fun p => negb (mem_permission p perms)) added in
  filter (fun p => negb (mem_permission p removed)) (perms ++ fresh).

Definition patch_users (users added removed : list ObjectID) : list ObjectID :=
  let fresh := filter (fun u => negb (mem_id u users)) added in
  filter (fun u => negb (mem_id u removed)) (users ++ fresh).

Definition set_Permissions (perms : list Permission) (r : Role) : Role :=
  {| Role_ID := Role_ID r; Role_Identifier := Role_Identifier r;
     Role_DisplayName := Role_DisplayName r; Role_Users := Role_Users r;
     Role_Groups := Role_Groups r; Role_Permissions := perms |}.

Definition apply_update (u : UpdateRole) (r : Role) : Role :=
  {| Role_ID := Role_ID r; Role_Identifier := Role_Identifier r;
     Role_DisplayName := default (Role_DisplayName r) (UpdateRole_DisplayName u);
     Role_Users := patch_users (Role_Users r) (UpdateRole_AddedUsers u)
                               (UpdateRole_RemovedUser u);
     Role_Groups := Role_Groups r; Role_Permissions := Role_Permissions r |}.

(** A command on one role of one organization; it reports [NotFound] when
    the organization or the role is absent and writes nothing then. *)
Definition on_role (st : Store) (org_id id : string) (f : Role -> Role)
  : Store * option error :=
  match st !! org_id with
  | None => (st, Some (NotFoundError "Organization"))
  | Some o =>
    match find_role o id with
    | None => (st, Some (NotFoundError "Role"))
    | Some _ => (<[org_id := alter_role f id o]> st, None)
    end
  end.

(** Modelled from the spec: the implementation of [role.Repository] is not
    part of the sources.  Every operation is keyed by the organization; a
    role is found by its id, a user by its id, a pair is declared when the
    resource carries the action; [PatchPermission] applies additions and
    removals against the role's permission set in one write; [Update]
    applies the added and removed members in one write. *)
Definition Repository : role.Repository Store :=
  {| repo_Get := fun st org_id id =>
       match st !! org_id with
       | None => inr no_documents
       | Some o => match find_role o id with
                   | Some r => inl r
                   | None => inr no_documents
                   end
       end;
     repo_Query := fun st org_id =>
       match st !! org_id with
       | None => inr no_documents
       | Some o => inl (Organization_Roles o)
       end;
     repo_Create := fun st org_id r =>
       match st !! org_id with
       | None => (st, Some (NotFoundError "Organization"))
       | Some o =>
         (<[org_id := with_Roles o (Organization_Roles o ++ [r])]> st, None)
       end;
     repo_Update := fun st org_id id u => on_role st org_id id (apply_update u);
     repo_Delete := fun st org_id id =>
       match st !! org_id with
       | None => (st, Some (NotFoundError "Organization"))
       | Some o =>
         (<[org_id := with_Roles o
              (filter (fun r => negb (String.eqb (Role_ID r) id))
                      (Organization_Roles o))]> st, None)
       end;
     repo_PatchPermission := fun st org_id id p =>
       on_role st org_id id
         (fun r => set_Permissions
                     (patch_permissions (Role_Permissions r)
                        (AddedPermission p) (RemovedPermission p)) r);
     CheckRoleExistsByIdentifier := fun st org_id identifier =>
       match st !! org_id with
       | None => (false, Some no_documents)
       | Some o =>
         (existsb (fun r => String.eqb (Role_Identifier r) identifier)
                  (Organization_Roles o), None)
       end;
     CheckUserExistById := fun st org_id user_id =>
       match st !! org_id with
       | None => (false, Some no_documents)
       | Some o =>
         (existsb (fun u => String.eqb (User_ID u) user_id)
                  (Organization_Users o), None)
       end;
     CheckUserAlreadyAssignToRoleById := fun st org_id id user_id =>
       match st !! org_id with
       | None => (false, Some no_documents)
       | Some o =>
         match find_role o id with
         | None => (false, Some no_documents)
         | Some r => (mem_id user_id (Role_Users r), None)
         end
       end;
     CheckResourceActionExists := fun st org_id resource action =>
       match st !! org_id with
       | None => (false, Some no_documents)
       | Some o => (declared o resource action, None)
       end |}.

End store.

(** ** The decision engine *)

Module engine.
Import util mongo_entity.

Record Tuple : Type := {
  SubjectId : string;
  Relation : string;
  Object : string }.

Definition Tuple_eqb (a b : Tuple) : bool :=
  String.eqb (SubjectId a) (SubjectId b)
  && String.eqb (Relation a) (Relation b)
  && String.eqb (Object a) (Object b).

(** The engine reads the organizations and the tuples recorded for each. *)
Record DB : Type := {
  orgs : gmap string Organization;
  tuples : list (string * Tuple) }.

(** Modelled from the spec: the permission service is not part of the
    sources.  [ResolveSubject] takes a user id or a username to the user's
    id together with the id of every group the user is a direct member of,
    and fails with [NotFound] for an unknown subject. *)
Definition ResolveSubject (o : Organization) (subjectRef : string)
  : list ObjectID + error :=
  match find (fun u => String.eqb (User_ID u) subjectRef
                       || String.eqb (User_Username u) subjectRef)
             (Organization_Users o) with
  | None => inr (NotFoundError "Subject")
  | Some u =>
    inl (User_ID u ::
         map Group_ID
             (filter (fun g => mem_id (User_ID u) (Group_Users g))
                     (Organization_Groups o)))
  end.

Definition intersects (l T : list ObjectID) : bool :=
  existsb (fun x => mem_id x T) l.

Definition candidate_roles (o : Organization) (T : list ObjectID) : list Role :=
  filter (fun r => intersects (Role_Users r) T || intersects (Role_Groups r) T)
         (Organization_Roles o).

Definition has_tuple (db : DB) (org : string) (t : Tuple) : bool :=
  existsb (fun ot => String.eqb (fst ot) org && Tuple_eqb (snd ot) t) (tuples db).

(** Modelled from the spec: [Check] fails with [NotFound] when the
    organization or the subject is absent and with [InvalidInput] when the
    pair is not declared; otherwise it holds iff some candidate role carries
    the pair or a tuple names the subject, the action and the resource. *)
Definition Check (db : DB) (org subjectRef action resource : string)
  : bool + error :=
  match orgs db !! org with
  | None => inr (NotFoundError "Organization")
  | Some o =>
    if negb (store.declared o resource action)
    then inr (InvalidInputError
                ("Invalid permission, Resource : " +:+ resource
                 +:+ " Action : " +:+ action))
    else
      match ResolveSubject o subjectRef with
      | inr e => inr e
      | inl T =>
        let p := {| Permission_Action := action;
                    Permission_Resource := resource |} in
        inl (existsb (fun r => mem_permission p (Role_Permissions r))
                     (candidate_roles o T)
             || has_tuple db org
                  {| SubjectId := subjectRef; Relation := action;
                     Object := resource |})
      end
  end.

(** Modelled from the spec: [CheckAll] evaluates [Check] independently per
    pair and returns the parallel boolean list, in input order; a failing
    [Check] fails the batch. *)
Fixpoint CheckAll (db : DB) (org subjectRef : string)
    (pairs : list Permission) : list bool + error :=
  match pairs with
  | [] => inl []
  | p :: rest =>
    match Check db org subjectRef (Permission_Action p) (Permission_Resource p) with
    | inr e => inr e
    | inl b =>
      match CheckAll db org subjectRef rest with
      | inr e => inr e
      | inl bs => inl (b :: bs)
      end
    end
  end.

(** Modelled from the spec: [CheckPermissions] evaluates [Check] for each
    action against the same resource and returns the per-action booleans. *)
Fixpoint CheckPermissions (db : DB) (org subjectRef : string)
    (actions : list string) (resource : string)
  : list (string * bool) + error :=
  match actions with
  | [] => inl []
  | a :: rest =>
    match Check db org subjectRef a resource with
    | inr e => inr e
    | inl b =>
      match CheckPermissions db org subjectRef rest resource with
      | inr e => inr e
      | inl bs => inl ((a, b) :: bs)
      end
    end
  end.

End engine.

(** ** Permission handlers (the HTTP layer over the engine) *)

Module permission.
Import util mongo_entity.

Record CheckRequestWithPermissions : Type := {
  Permissions_Subject : string;
  Permissions_Actions : list string;
  Permissions_Resource : string }.

Record CheckRequestAll : Type := {
  All_Subject : string;
  All_Pairs : list Permission }.

Record CheckActionsRequest : Type := {
  Actions_Subject : string;
  Actions_Resource : string }.

Record PermissionPatchRequest : Type := {
  Patch_AddedPermissions : list Permission;
  Patch_RemovedPermissions : list Permission }.

(** The [Service] interface the handlers call; every method takes the
    organization and the namespace.  [St] is the state behind the service:
    the two commands return the state they leave. *)
Record Service (St : Type) : Type := {
  CreateTuple : St -> string -> string -> engine.Tuple -> St * option error;
  CheckTuple : St -> string -> string -> engine.Tuple -> bool -> bool + error;
  GetObjectListBySubject :
    St -> string -> string -> engine.Tuple -> list string + error;
  GetSubjectListByObject :
    St -> string -> string -> engine.Tuple -> list string + error;
  CheckByUsername : St -> string -> string -> engine.Tuple -> bool + error;
  CheckPermissions :
    St -> string -> string -> CheckRequestWithPermissions
    -> list (string * bool) + error;
  CheckAll : St -> string -> string -> CheckRequestAll -> list bool + error;
  CheckActions : St -> string -> string -> CheckActionsRequest -> list string;
  PatchPermissions :
    St -> string -> string -> PermissionPatchRequest -> St * option error }.
Arguments CreateTuple {St}.
Arguments CheckTuple {St}.
Arguments GetObjectListBySubject {St}.
Arguments GetSubjectListByObject {St}.
Arguments CheckByUsername {St}.
Arguments CheckPermissions {St}.
Arguments CheckAll {St}.
Arguments CheckActions {St}.
Arguments PatchPermissions {St}.

(** What [c.JSON] serialises. *)
Inductive body : Type :=
  | text (s : string)
  | flag (b : bool)
  | flags (bs : list bool)
  | flag_map (m : list (string * bool))
  | names (l : list string).

(** [c.JSON(code, body)]. *)
Record response : Type := JSON { code : nat; payload : body }.

Definition bad_input : error :=
  HTTPError StatusBadRequest "Invalid inputs. Please check your inputs".

Section Handlers.
Context {St : Type} (service : Service St).

(** A handler sees the path parameter and the bound body; [c.Bind] may fail,
    which [None] stands for. *)

Definition create (st : St) (org : string) (input : option engine.Tuple)
  : St * outcome response :=
  match input with
  | None => (st, Fail bad_input)
  | Some input =>
    let '(st', err) := CreateTuple service st org "permission" input in
    match err with
    | Some err => (st', Fail (HandleError err))
    | None => (st', Return (JSON StatusOK (text EmptyString)))
    end
  end.

Definition check (st : St) (org : string) (input : option engine.Tuple)
  : outcome response :=
  match input with
  | None => Fail bad_input
  | Some input =>
    match CheckTuple service st org "permission" input true with
    | inr err => Fail (HandleError err)
    | inl allow => Return (JSON StatusOK (flag allow))
    end
  end.

Definition delete (st : St) (org : string) (input : option engine.Tuple)
  : outcome response :=
  match input with
  | None => Fail bad_input
  | Some input =>
    match CheckTuple service st org "permission" input false with
    | inr err => Fail (HandleError err)
    | inl allow => Return (JSON StatusOK (flag allow))
    end
  end.

Definition getobjectlist (st : St) (org : string) (input : option engine.Tuple)
  : outcome response :=
  match input with
  | None => Fail bad_input
  | Some input =>
    match GetObjectListBySubject service st org "permission" input with
    | inr err => Fail (HandleError err)
    | inl allow => Return (JSON StatusOK (names allow))
    end
  end.

Definition getsubjectlist (st : St) (org : string) (input : option engine.Tuple)
  : outcome response :=
  match input with
  | None => Fail bad_input
  | Some input =>
    match GetSubjectListByObject service st org "permission" input with
    | inr err => Fail (HandleError err)
    | inl allow => Return (JSON StatusOK (names allow))
    end
  end.

Definition checkbyusername (st : St) (org : string)
    (input : option engine.Tuple) : outcome response :=
  match input with
  | None => Fail bad_input
  | Some input =>
    match CheckByUsername service st org "permission" input with
    | inr err => Fail (HandleError err)
    | inl allow => Return (JSON StatusOK (flag allow))
    end
  end.

Definition checkpermissions (st : St) (org : string)
    (input : option CheckRequestWithPermissions) : outcome response :=
  match input with
  | None => Fail bad_input
  | Some input =>
    match CheckPermissions service st org "permission" input with
    | inr err => Fail (HandleError err)
    | inl allow => Return (JSON StatusOK (flag_map allow))
    end
  end.

Definition checkall (st : St) (org : string) (input : option CheckRequestAll)
  : outcome response :=
  match input with
  | None => Fail bad_input
  | Some input =>
    match CheckAll service st org "permission" input with
    | inr err => Fail (HandleError err)
    | inl allow => Return (JSON StatusOK (flags allow))
    end
  end.

Definition checkActions (st : St) (org_id : string)
    (input : option CheckActionsRequest) : outcome response :=
  match input with
  | None => Fail bad_input
  | Some input =>
    Return (JSON StatusOK
              (names (CheckActions service st org_id "permission" input)))
  end.

(** [patchPermissions]: the service's error is assigned to the blank
    identifier and the handler answers 200 in either case. *)
Definition patchPermissions (st : St) (org_id : string)
    (input : option PermissionPatchRequest) : St * outcome response :=
  match input with
  | None => (st, Fail bad_input)
  | Some input =>
    let '(st', _) := PatchPermissions service st org_id "permission" input in
    (st', Return (JSON StatusOK (text EmptyString)))
  end.

End Handlers.

(** Whether the framework ends up answering with a success status. *)
Definition acknowledged {St : Type} (r : St * outcome response) : bool :=
  match snd r with
  | Return (JSON c _) => (c <? 300)%nat
  | _ => false
  end.

(** Modelled from the spec: the permission service is not part of the
    sources.  [CheckPermissions] and [CheckAll] are the engine's batch
    checks over the subject and the pairs of the request; the remaining
    methods are taken from [base]. *)
Definition batch_service (base : Service engine.DB) : Service engine.DB :=
  {| CreateTuple := CreateTuple base;
     CheckTuple := CheckTuple base;
     GetObjectListBySubject := GetObjectListBySubject base;
     GetSubjectListByObject := GetSubjectListByObject base;
     CheckByUsername := CheckByUsername base;
     CheckPermissions := fun db org _ input =>
       engine.CheckPermissions db org (Permissions_Subject input)
         (Permissions_Actions input) (Permissions_Resource input);
     CheckAll := fun db org _ input =>
       engine.CheckAll db org (All_Subject input) (All_Pairs input);
     CheckActions := CheckActions base;
     PatchPermissions := PatchPermissions base |}.

End permission.

(** ** Resource service ([internal/resource/service.go]) *)

Module resource.
Import util.

(** [entity.Resource], with the fields the service reads and writes. *)
Record Resource : Type := {
  ID : string;
  Key : string;
  Name : string }.

Record CreateResourceRequest : Type := {
  CreateResourceRequest_Key : string;
  CreateResourceRequest_Name : string;
  CreateResourceRequest_OrgID : string }.

Record UpdateResourceRequest : Type := {
  UpdateResourceRequest_Name : string }.

Definition CreateResourceRequest_Validate (m : CreateResourceRequest)
  : option error :=
  if String.eqb (CreateResourceRequest_Key m) EmptyString
  then Some (errorString "resource_key: cannot be blank.")
  else None.

(** [validation.ValidateStruct(&m)] without field rules accepts. *)
Definition UpdateResourceRequest_Validate (m : UpdateResourceRequest)
  : option error := None.

(** The [Repository] interface as the service calls it: [ExistByKey] takes
    the key alone, the other operations take the organization first. *)
Record Repository (Store : Type) : Type := {
  repo_Get : Store -> string -> string -> Resource + error;
  repo_Query : Store -> string -> list Resource + error;
  repo_Create : Store -> string -> Resource -> Store * option error;
  repo_Update : Store -> string -> Resource -> Store * option error;
  repo_Delete : Store -> string -> string -> Store * option error;
  ExistByKey : Store -> string -> bool * option error }.
Arguments repo_Get {Store}.
Arguments repo_Query {Store}.
Arguments repo_Create {Store}.
Arguments repo_Update {Store}.
Arguments repo_Delete {Store}.
Arguments ExistByKey {Store}.

Section Service.
Context {Store : Type} (repo : Repository Store).

Definition Get (st : Store) (org_id id : string) : Resource + error :=
  match repo_Get repo st org_id id with
  | inr _ => inr (NotFoundError "Resource")
  | inl resource => inl resource
  end.

(** [service.Create]; [id] is what [entity.GenerateID] returns. *)
Definition Create (st : Store) (org_id : string) (req : CreateResourceRequest)
    (id : string) : Store * (Resource + error) :=
  match CreateResourceRequest_Validate req with
  | Some _ => (st, inr (InvalidInputError "Invalid input for resource."))
  | None =>
    if fst (ExistByKey repo st (CreateResourceRequest_Key req))
    then (st, inr (AlreadyExistsError
                     ("Resource : " +:+ CreateResourceRequest_Key req
                      +:+ " already exists.")))
    else
      let '(st', err) :=
        repo_Create repo st org_id
          {| ID := id; Key := CreateResourceRequest_Key req;
             Name := CreateResourceRequest_Name req |} in
      match err with
      | Some e => (st', inr e)
      | None => (st', Get st' org_id id)
      end
  end.

Definition set_Name (r : Resource) (name : string) : Resource :=
  {| ID := ID r; Key := Key r; Name := name |}.

(** [service.Update]. *)
Definition Update (st : Store) (org_id id : string)
    (req : UpdateResourceRequest) : Store * (Resource + error) :=
  match UpdateResourceRequest_Validate req with
  | Some _ => (st, inr (InvalidInputError "Invalid input for resource."))
  | None =>
    match Get st org_id id with
    | inr _ => (st, inr (NotFoundError ("Resource " +:+ id +:+ " not exists.")))
    | inl resource =>
      let resource := set_Name resource (UpdateResourceRequest_Name req) in
      let '(st', err) := repo_Update repo st org_id resource in
      match err with
      | Some e => (st', inr e)
      | None => (st', inl resource)
      end
    end
  end.

(** [service.Delete]. *)
Definition Delete (st : Store) (org_id id : string)
  : Store * (Resource + error) :=
  match Get st org_id id with
  | inr _ => (st, inr (NotFoundError ("Resource " +:+ id +:+ " not exists.")))
  | inl resource =>
    let '(st', err) := repo_Delete repo st org_id id in
    match err with
    | Some e => (st', inr e)
    | None => (st', inl resource)
    end
  end.

End Service.

(** Modelled from the spec: the implementation of [resource.Repository] is
    not part of the sources.  Resources are kept per organization; a
    resource is found by its id within its organization, [Update] replaces
    the stored resource of the same id, and [ExistByKey], which is given no
    organization, looks the key up in every organization. *)
Definition memory : Repository (gmap string (list Resource)) :=
  {| repo_Get := fun st org_id id =>
       match find (fun r => String.eqb (ID r) id) (default [] (st !! org_id)) with
       | Some r => inl r
       | None => inr (errorString "sql: no rows in result set")
       end;
     repo_Query := fun st org_id => inl (default [] (st !! org_id));
     repo_Create := fun st org_id r =>
       (<[org_id := default [] (st !! org_id) ++ [r]]> st, None);
     repo_Update := fun st org_id r =>
       (<[org_id := map (fun x => if String.eqb (ID x) (ID r) then r else x)
                        (default [] (st !! org_id))]> st, None);
     repo_Delete := fun st org_id id =>
       (<[org_id := filter (fun x => negb (String.eqb (ID x) id))
                           (default [] (st !! org_id))]> st, None);
     ExistByKey := fun st key =>
       (existsb (fun kv => existsb (fun r => String.eqb (Key r) key) (snd kv))
                (map_to_list st), None) |}.

End resource.

(** ** SQL repositories ([repositories]) *)

Module repositories.
Import util.

(** *** Groups ([repositories/group.go]) *)

Module group.

Record UserID : Type := { UserID_UserID : string }.

Record Group : Type := {
  Group_ID : string;
  Group_Key : string;
  Group_Name : string;
  Group_TenantID : string;
  Group_Users : list UserID }.

Record GroupPatchOperation : Type := {
  Operation : string;
  Users : list UserID }.

Record GroupPatchRequest : Type := {
  Operations : list GroupPatchOperation }.

(** Table [tenant_group]. *)
Record tenant_group_row : Type := {
  group_id : string;
  group_key : string;
  name : string;
  tenant_id : string }.

(** The database: [tenant_group] and [group_user(group_id, user_id)]; the
    second table has no tenant column. *)
Record DB : Type := {
  tenant_group : list tenant_group_row;
  group_user : list (string * string) }.

(** What the driver may refuse: opening and committing a transaction,
    preparing a statement, executing it for a given row, running a query. *)
Record Faults : Type := {
  Begin_err : option error;
  Prepare_err : option error;
  Exec_err : string -> string -> option error;
  Query_err : option error;
  Commit_err : option error }.

Definition no_faults : Faults :=
  {| Begin_err := None; Prepare_err := None; Exec_err := fun _ _ => None;
     Query_err := None; Commit_err := None |}.

(** [log.Fatal] ends the process; an open transaction is then lost. *)
Inductive run (A : Type) : Type :=
  | Done (a : A)
  | Fatal (e : error).
Arguments Done {A} a.
Arguments Fatal {A} e.

Definition to_Group (r : tenant_group_row) (users : list UserID) : Group :=
  {| Group_ID := group_id r; Group_Key := group_key r; Group_Name := name r;
     Group_TenantID := tenant_id r; Group_Users := users |}.

Definition row_eqb (a b : string * string) : bool :=
  String.eqb (fst a) (fst b) && String.eqb (snd a) (snd b).

(** [SELECT * FROM tenant_group WHERE tenant_id = $1] *)
Definition GetGroups (f : Faults) (db : DB) (tenant : string)
  : list Group + error :=
  match Query_err f with
  | Some e => inr e
  | None =>
    inl (map (fun r => to_Group r [])
             (filter (fun r => String.eqb (tenant_id r) tenant) (tenant_group db)))
  end.

(** [GetGroup]: the group row by tenant and id, then its users by id.  The
    query for the users has no [ORDER BY]: the order of the users returned
    is the database's, here the order of the table, and only which users are
    returned, and how often, is meant. *)
Definition GetGroup (f : Faults) (db : DB) (tenant id : string)
  : Group + error :=
  match Query_err f with
  | Some e => inr e
  | None =>
    match find (fun r => String.eqb (tenant_id r) tenant
                         && String.eqb (group_id r) id) (tenant_group db) with
    | None => inr (errorString "sql: no rows in result set")
    | Some r =>
      inl (to_Group r
             (map (fun gu => {| UserID_UserID := snd gu |})
                  (filter (fun gu => String.eqb (fst gu) id) (group_user db))))
    end
  end.

(** [SELECT exists (SELECT group_id FROM tenant_group WHERE group_id = $1)] *)
Definition CheckGroupExistsById (f : Faults) (db : DB) (id : string)
  : bool * option error :=
  match Query_err f with
  | Some e => (false, Some e)
  | None =>
    (existsb (fun r => String.eqb (group_id r) id) (tenant_group db), None)
  end.

(** [... WHERE tenant_id = $1 AND group_key = $2] *)
Definition CheckGroupExistsByKey (f : Faults) (db : DB) (tenant key : string)
  : bool * option error :=
  match Query_err f with
  | Some e => (false, Some e)
  | None =>
    (existsb (fun r => String.eqb (tenant_id r) tenant
                       && String.eqb (group_key r) key) (tenant_group db), None)
  end.

(** Whether [group_user] holds the row. *)
Definition member (db : DB) (groupId userId : string) : bool :=
  existsb (row_eqb (groupId, userId)) (group_user db).

(** [SELECT exists (SELECT user_id FROM group_user
                    WHERE group_id = $1 AND user_id = $2)] *)
Definition IsUserInGroup (f : Faults) (db : DB) (groupId userId : string)
  : bool * option error :=
  match Query_err f with
  | Some e => (false, Some e)
  | None => (member db groupId userId, None)
  end.

Definition with_group_user (db : DB) (rows : list (string * string)) : DB :=
  {| tenant_group := tenant_group db; group_user := rows |}.

(** [AddUserToGroup]: one insert outside any transaction. *)
Definition AddUserToGroup (f : Faults) (db : DB) (group_id user_id : string)
  : DB * option error :=
  match Prepare_err f with
  | Some e => (db, Some e)
  | None =>
    match Exec_err f group_id user_id with
    | Some e => (db, Some e)
    | None => (with_group_user db (group_user db ++ [(group_id, user_id)]), None)
    end
  end.

(** The loop of an [add] operation.  [IsUserInGroup] reads the database
    through [config.DB], outside the transaction; the inserts go to the
    transaction's rows [tx]. *)
Fixpoint add_loop (f : Faults) (db : DB) (group_id : string)
    (users : list UserID) (tx : list (string * string))
  : run (list (string * string)) :=
  match users with
  | [] => Done tx
  | user :: rest =>
    let '(exists_, user_error) := IsUserInGroup f db group_id (UserID_UserID user) in
    if exists_ || bool_decide (user_error <> None)
    then add_loop f db group_id rest tx
    else
      match Exec_err f group_id (UserID_UserID user) with
      | Some e => Fatal e
      | None => add_loop f db group_id rest (tx ++ [(group_id, UserID_UserID user)])
      end
  end.

(** The loop of a [remove] operation. *)
Fixpoint remove_loop (f : Faults) (db : DB) (group_id : string)
    (users : list UserID) (tx : list (string * string))
  : run (list (string * string)) :=
  match users with
  | [] => Done tx
  | user :: rest =>
    let '(exists_, user_error) := IsUserInGroup f db group_id (UserID_UserID user) in
    if negb exists_ || bool_decide (user_error <> None)
    then remove_loop f db group_id rest tx
    else
      match Exec_err f group_id (UserID_UserID user) with
      | Some e => Fatal e
      | None =>
        remove_loop f db group_id rest
          (filter (fun gu => negb (row_eqb (group_id, UserID_UserID user) gu)) tx)
      end
  end.

(** The rows left when the rows of the listed users are deleted one by
    one, as the [DELETE] statement of the remove loop does. *)
Definition delete_rows (group_id : string) (users : list UserID)
    (tx : list (string * string)) : list (string * string) :=
  fold_left
    (fun rows u =>
       filter (fun gu => negb (row_eqb (group_id, UserID_UserID u) gu)) rows)
    users tx.




(** One case of the [switch] over [operation.Operation]. *)
Definition apply_operation (f : Faults) (db : DB) (group_id : string)
    (operation : GroupPatchOperation) (tx : list (string * string))
  : run (list (string * string)) :=
  if String.eqb (Operation operation) "add" then
    if (0 <? List.length (Users operation))%nat then
      match Prepare_err f with
      | Some e => Fatal e
      | None => add_loop f db group_id (Users operation) tx
      end
    else Done tx
  else if String.eqb (Operation operation) "remove" then
    if (0 <? List.length (Users operation))%nat then
      match Prepare_err f with
      | Some e => Fatal e
      | None => remove_loop f db group_id (Users operation) tx
      end
    else Done tx
  else Done tx.

Fixpoint apply_operations (f : Faults) (db : DB) (group_id : string)
    (operations : list GroupPatchOperation) (tx : list (string * string))
  : run (list (string * string)) :=
  match operations with
  | [] => Done tx
  | operation :: rest =>
    match apply_operation f db group_id operation tx with
    | Fatal e => Fatal e
    | Done tx' => apply_operations f db group_id rest tx'
    end
  end.

(** [PatchGroup]: a transaction around the operations; the database changes
    at commit. *)
Definition PatchGroup (f : Faults) (db : DB) (group_id : string)
    (groupPatch : GroupPatchRequest) : run (DB * option error) :=
  match Begin_err f with
  | Some e => Done (db, Some e)
  | None =>
    match apply_operations f db group_id (Operations groupPatch) (group_user db) with
    | Fatal e => Fatal e
    | Done tx =>
      match Commit_err f with
      | Some e => Done (db, Some e)
      | None => Done (with_group_user db tx, None)
      end
    end
  end.

(** Whether [tenant] owns a group of this id. *)
Definition owns (db : DB) (tenant g : string) : bool :=
  existsb (fun r => String.eqb (tenant_id r) tenant && String.eqb (group_id r) g)
          (tenant_group db).

(** The part of the database that belongs to [tenant]: its group rows and
    the memberships of its groups. *)
Definition restrict (tenant : string) (db : DB) : DB :=
  {| tenant_group :=
       filter (fun r => String.eqb (tenant_id r) tenant) (tenant_group db);
     group_user := filter (fun gu => owns db tenant (fst gu)) (group_user db) |}.

(** A query issued for [tenant] is scoped by the tenant when its answer is
    the answer it gets from the tenant's own part of the database. *)
Definition tenant_scoped {A : Type} (tenant : string) (q : DB -> A) : Prop :=
  forall db, q db = q (restrict tenant db).

(** The insert loop of [CreateGroup]: one [INSERT INTO group_user] per
    listed user, without a membership test; a refused insert is fatal. *)
Fixpoint insert_users (f : Faults) (group_id : string) (users : list UserID)
    (tx : list (string * string)) : run (list (string * string)) :=
  match users with
  | [] => Done tx
  | user :: rest =>
    match Exec_err f group_id (UserID_UserID user) with
    | Some e => Fatal e
    | None => insert_users f group_id rest (tx ++ [(group_id, UserID_UserID user)])
    end
  end.

Definition set_ID (group : Group) (id : string) : Group :=
  {| Group_ID := id; Group_Key := Group_Key group; Group_Name := Group_Name group;
     Group_TenantID := Group_TenantID group; Group_Users := Group_Users group |}.

(** [CreateGroup]: in one transaction, the group row ([INSERT ... RETURNING
    group_id], read with [QueryRow]) and the rows of its users.  [new_id] is
    the id the database hands out.  The caller's group gets its [ID] only
    after the commit. *)
Definition CreateGroup (f : Faults) (db : DB) (tenant : string) (group : Group)
    (new_id : string) : run (DB * Group * option error) :=
  match Begin_err f with
  | Some e => Done (db, group, Some e)
  | None =>
    match Prepare_err f with
    | Some e => Done (db, group, Some e)
    | None =>
      match Query_err f with
      | Some e => Done (db, group, Some e)
      | None =>
        let rows :=
          tenant_group db
          ++ [ {| group_id := new_id; group_key := Group_Key group;
                  name := Group_Name group; tenant_id := tenant |} ] in
        let inserted :=
          if (0 <? List.length (Group_Users group))%nat then
            match Prepare_err f with
            | Some e => Fatal e
            | None => insert_users f new_id (Group_Users group) (group_user db)
            end
          else Done (group_user db) in
        match inserted with
        | Fatal e => Fatal e
        | Done tx =>
          match Commit_err f with
          | Some e => Done (db, group, Some e)
          | None =>
            Done ({| tenant_group := rows; group_user := tx |},
                  set_ID group new_id, None)
          end
        end
      end
    end
  end.

(** [DeleteGroup]: in one transaction, [DELETE FROM group_user WHERE
    group_id = $1], then [DELETE FROM tenant_group WHERE tenant_id = $1 AND
    group_id = $2].  [Exec_err] is asked for the group id alone for the
    first statement and for the tenant and the group id for the second. *)
Definition DeleteGroup (f : Faults) (db : DB) (tenant id : string)
  : DB * option error :=
  match Begin_err f with
  | Some e => (db, Some e)
  | None =>
    match Prepare_err f with
    | Some e => (db, Some e)
    | None =>
      match Exec_err f id EmptyString with
      | Some e => (db, Some e)
      | None =>
        let users :=
          filter (fun gu => negb (String.eqb (fst gu) id)) (group_user db) in
        match Exec_err f tenant id with
        | Some e => (db, Some e)
        | None =>
          let groups :=
            filter (fun r => negb (String.eqb (tenant_id r) tenant
                                   && String.eqb (group_id r) id))
                   (tenant_group db) in
          match Commit_err f with
          | Some e => (db, Some e)
          | None => ({| tenant_group := groups; group_user := users |}, None)
          end
        end
      end
    end
  end.

Definition rename (r : tenant_group_row) (new_name : string) : tenant_group_row :=
  {| group_id := group_id r; group_key := group_key r; name := new_name;
     tenant_id := tenant_id r |}.

(** [UpdateGroup]: [UPDATE tenant_group SET name = $1 WHERE tenant_id = $2
    AND group_id = $3], outside any transaction. *)
Definition UpdateGroup (f : Faults) (db : DB) (group : Group)
  : DB * option error :=
  match Prepare_err f with
  | Some e => (db, Some e)
  | None =>
    match Exec_err f (Group_TenantID group) (Group_ID group) with
    | Some e => (db, Some e)
    | None =>
      ({| tenant_group :=
            map (fun r => if String.eqb (tenant_id r) (Group_TenantID group)
                             && String.eqb (group_id r) (Group_ID group)
                          then rename r (Group_Name group) else r)
                (tenant_group db);
          group_user := group_user db |}, None)
    end
  end.

(** The patch requests with a single operation. *)
Definition add_patch (users : list UserID) : GroupPatchRequest :=
  {| Operations := [ {| Operation := "add"; Users := users |} ] |}.

Definition remove_patch (users : list UserID) : GroupPatchRequest :=
  {| Operations := [ {| Operation := "remove"; Users := users |} ] |}.

End group.

(** *** Resources ([repositories], the GORM resource repository) *)

Module resource.

Record Resource : Type := {
  Resource_ID : string;
  Resource_Key : string;
  Resource_Name : string;
  Resource_Description : string;
  Resource_ProjectID : string }.

(** An action of a resource, and a permission of a role on an action of a
    resource. *)
Record ResourceAction : Type := {
  Action_ID : string;
  Action_ResourceID : string }.

Record RolePermission : Type := {
  Permission_RoleID : string;
  Permission_ResourceID : string;
  Permission_ActionID : string }.

Record DB : Type := {
  resources : list Resource;
  resource_actions : list ResourceAction;
  role_permissions : list RolePermission }.

(** [config.DB.Model(&models.Resource{}).Where("project_id = ?", ...)] *)
Definition GetResources (db : DB) (proj_id : string) : list Resource :=
  filter (fun r => String.eqb (Resource_ProjectID r) proj_id) (resources db).

(** Modelled from the spec: [DeleteAllResourceActions] is not part of the
    sources; deleting a resource removes its actions. *)
Definition DeleteAllResourceActions (db : DB) (res_id : string) : DB :=
  {| resources := resources db;
     resource_actions :=
       filter (fun a => negb (String.eqb (Action_ResourceID a) res_id))
              (resource_actions db);
     role_permissions := role_permissions db |}.

(** Modelled from the spec: [DeleteAllResourceRoles] is not part of the
    sources; deleting a resource removes the role permissions that
    reference it. *)
Definition DeleteAllResourceRoles (db : DB) (res_id : string) : DB :=
  {| resources := resources db;
     resource_actions := resource_actions db;
     role_permissions :=
       filter (fun p => negb (String.eqb (Permission_ResourceID p) res_id))
              (role_permissions db) |}.

(** The database as a statement meets it.  The ids the rows carry are in
    the rendering [fmt.Sprint] gives them.  [reads] is how the database
    takes a text argument set against an id column: the id it denotes, in
    that rendering, or none; [query_fails] tells whether a query comes back
    with an error. *)
Record Engine : Type := {
  reads : string -> option string;
  query_fails : bool }.

(** The rendering of the zero id: a struct whose [ID] is zero carries no
    primary key. *)
Definition no_key : string := "0".

(** The rows [config.DB.Where("id = ?", res_id).Delete(&resource)] deletes:
    those whose id is the one read in [res_id] and, when the caller's struct
    carries a primary key, is that key as well. *)
Definition deleted (e : Engine) (resource : Resource) (res_id : string)
    (r : Resource) : bool :=
  match reads e res_id with
  | None => false
  | Some id =>
    String.eqb (Resource_ID r) id
    && (String.eqb (Resource_ID resource) no_key
        || String.eqb (Resource_ID r) (Resource_ID resource))
  end.

(** [DeleteResource]: the two cascades for the id read in [res_id], then
    the delete of the resource row, joined with the caller's struct. *)
Definition DeleteResource (e : Engine) (db : DB) (resource : Resource)
    (res_id : string) : DB :=
  let cascaded :=
    match reads e res_id with
    | None => db
    | Some id => DeleteAllResourceRoles (DeleteAllResourceActions db id) id
    end in
  {| resources :=
       filter (fun r => negb (deleted e resource res_id r)) (resources cascaded);
     resource_actions := resource_actions cascaded;
     role_permissions := role_permissions cascaded |}.

(** [DeleteAllResources]: the two cascades for every resource of the
    project, then the resource rows of the project. *)
Definition DeleteAllResources (db : DB) (proj_id : string) : DB :=
  let db1 :=
    fold_left
      (fun d resource =>
         DeleteAllResourceRoles
           (DeleteAllResourceActions d (Resource_ID resource))
           (Resource_ID resource))
      (GetResources db proj_id) db in
  {| resources :=
       filter (fun r => negb (String.eqb (Resource_ProjectID r) proj_id))
              (resources db1);
     resource_actions := resource_actions db1;
     role_permissions := role_permissions db1 |}.

(** [CheckResourceExistsById]: a failed query answers [false] with the
    error "resource not exists"; otherwise the answer is whether a row
    carries the id read in [res_id]. *)
Definition CheckResourceExistsById (e : Engine) (db : DB) (res_id : string)
  : bool * option util.error :=
  if query_fails e then (false, Some (util.errorString "resource not exists"))
  else
    match reads e res_id with
    | None => (false, None)
    | Some id =>
      (existsb (fun r => String.eqb (Resource_ID r) id) (resources db), None)
    end.

(** [CheckResourceExistsByKey]: a failed query answers [false] with an
    error of empty text; otherwise the answer is whether a row of the
    project carries the key. *)
Definition CheckResourceExistsByKey (e : Engine) (db : DB) (key proj_id : string)
  : bool * option util.error :=
  if query_fails e then (false, Some (util.errorString EmptyString))
  else
    (existsb (fun r => String.eqb (Resource_Key r) key
                       && String.eqb (Resource_ProjectID r) proj_id)
             (resources db), None).

(** A permission is grounded when its resource exists and its action is an
    action of that resource. *)
Definition grounded (db : DB) (p : RolePermission) : Prop :=
  (exists r, r ∈ resources db /\ Resource_ID r = Permission_ResourceID p)
  /\ (exists a, a ∈ resource_actions db
                /\ Action_ID a = Permission_ActionID p
                /\ Action_ResourceID a = Permission_ResourceID p).

(** The same, as a check that runs. *)
Definition groundedb (db : DB) (p : RolePermission) : bool :=
  existsb (fun r => String.eqb (Resource_ID r) (Permission_ResourceID p))
          (resources db)
  && existsb (fun a => String.eqb (Action_ID a) (Permission_ActionID p)
                       && String.eqb (Action_ResourceID a) (Permission_ResourceID p))
             (resource_actions db).

Definition consistentb (db : DB) : bool :=
  forallb (groundedb db) (role_permissions db).

(** No role permission dangles. *)
Definition consistent (db : DB) : Prop :=
  forall p, p ∈ role_permissions db -> grounded db p.

End resource.

End repositories.

(** ** The running example: organization [acme] *)

Module scenario.
Import mongo_entity.

Definition approve_invoices : Permission :=
  {| Permission_Action := "approve"; Permission_Resource := "invoices" |}.
Definition view_invoices : Permission :=
  {| Permission_Action := "view"; Permission_Resource := "invoices" |}.
Definition delete_ledger : Permission :=
  {| Permission_Action := "delete"; Permission_Resource := "ledger" |}.

Definition user (id : string) : User :=
  {| User_ID := id; User_Username := id; User_Identifier := id;
     User_UserProperties := []; User_Roles := []; User_Groups := [] |}.

Definition invoices : Resource :=
  {| Resource_ID := "res1"; Resource_Identifier := "invoices";
     Resource_DisplayName := "Invoices"; Resource_Type := "document";
     Resource_Actions :=
       [ {| Action_ID := "act1"; Action_Identifier := "approve";
            Action_DisplayName := "Approve" |};
         {| Action_ID := "act2"; Action_Identifier := "view";
            Action_DisplayName := "View" |} ] |}.

Definition finance : Role :=
  {| Role_ID := "finance"; Role_Identifier := "finance";
     Role_DisplayName := "Finance"; Role_Users := ["alice"];
     Role_Groups := []; Role_Permissions := [approve_invoices] |}.

Definition readonly : Role :=
  {| Role_ID := "readonly"; Role_Identifier := "readonly";
     Role_DisplayName := "Read only"; Role_Users := [];
     Role_Groups := ["auditors"]; Role_Permissions := [view_invoices] |}.

Definition auditors : Group :=
  {| Group_ID := "auditors"; Group_Identifier := "auditors";
     Group_DisplayName := "Auditors"; Group_Users := ["carol"];
     Group_Roles := ["readonly"] |}.

Definition acme : Organization :=
  {| Organization_ID := "acme"; Organization_Identifier := "acme";
     Organization_DisplayName := "Acme"; Organization_API_KEY := "k-acme";
     Organization_Resources := [invoices];
     Organization_Users := [user "alice"; user "bob"; user "carol"];
     Organization_Roles := [finance; readonly];
     Organization_Groups := [auditors] |}.

Definition st0 : gmap string Organization := {[ "acme" := acme ]}.

Definition permissions_of (st : gmap string Organization) (org_id id : string)
  : list Permission :=
  match st !! org_id with
  | None => []
  | Some o => match store.find_role o id with
              | None => []
              | Some r => Role_Permissions r
              end
  end.

(** The group tables of two tenants: [acme] owns group [g1] with member
    alice, [globex] owns group [g2] with member dave. *)
Definition groups_db : repositories.group.DB :=
  {| repositories.group.tenant_group :=
       [ {| repositories.group.group_id := "g1";
            repositories.group.group_key := "auditors";
            repositories.group.name := "Auditors";
            repositories.group.tenant_id := "acme" |};
         {| repositories.group.group_id := "g2";
            repositories.group.group_key := "staff";
            repositories.group.name := "Staff";
            repositories.group.tenant_id := "globex" |} ];
     repositories.group.group_user := [("g1", "alice"); ("g2", "dave")] |}.

(** A resource database with one resource, its action, and a role
    permission on it, next to a second resource. *)
Definition resources_db : repositories.resource.DB :=
  {| repositories.resource.resources :=
       [ {| repositories.resource.Resource_ID := "1";
            repositories.resource.Resource_Key := "invoices";
            repositories.resource.Resource_Name := "Invoices";
            repositories.resource.Resource_Description := "All invoices";
            repositories.resource.Resource_ProjectID := "p1" |};
         {| repositories.resource.Resource_ID := "2";
            repositories.resource.Resource_Key := "ledger";
            repositories.resource.Resource_Name := "Ledger";
            repositories.resource.Resource_Description := "The ledger";
            repositories.resource.Resource_ProjectID := "p1" |} ];
     repositories.resource.resource_actions :=
       [ {| repositories.resource.Action_ID := "10";
            repositories.resource.Action_ResourceID := "1" |};
         {| repositories.resource.Action_ID := "20";
            repositories.resource.Action_ResourceID := "2" |} ];
     repositories.resource.role_permissions :=
       [ {| repositories.resource.Permission_RoleID := "finance";
            repositories.resource.Permission_ResourceID := "1";
            repositories.resource.Permission_ActionID := "10" |};
         {| repositories.resource.Permission_RoleID := "finance";
            repositories.resource.Permission_ResourceID := "2";
            repositories.resource.Permission_ActionID := "20" |} ] |}.

(** A permission service that refuses every command with [InvalidInput]
    and every query with the same error. *)
Definition refused : util.error := util.InvalidInputError "Invalid permission".

Definition refusing : permission.Service unit :=
  {| permission.CreateTuple := fun st _ _ _ => (st, Some refused);
     permission.CheckTuple := fun _ _ _ _ _ => inr refused;
     permission.GetObjectListBySubject := fun _ _ _ _ => inr refused;
     permission.GetSubjectListByObject := fun _ _ _ _ => inr refused;
     permission.CheckByUsername := fun _ _ _ _ => inr refused;
     permission.CheckPermissions := fun _ _ _ _ => inr refused;
     permission.CheckAll := fun _ _ _ _ => inr refused;
     permission.CheckActions := fun _ _ _ _ => [];
     permission.PatchPermissions := fun st _ _ _ => (st, Some refused) |}.

(** A database that reads decimal text as a number: leading zeros do not
    count, anything else denotes no id; its queries do not fail. *)
Definition is_digit (c : ascii) : bool :=
  (48 <=? nat_of_ascii c)%nat && (nat_of_ascii c <=? 57)%nat.

Fixpoint all_digits (s : string) : bool :=
  match s with
  | EmptyString => true
  | String c rest => is_digit c && all_digits rest
  end.

Fixpoint strip_zeros (s : string) : string :=
  match s with
  | EmptyString => EmptyString
  | String c rest =>
    if Ascii.eqb c "0"%char && negb (String.eqb rest EmptyString)
    then strip_zeros rest else s
  end.

Definition decimal : repositories.resource.Engine :=
  {| repositories.resource.reads := fun s =>
       if all_digits s && negb (String.eqb s EmptyString)
       then Some (strip_zeros s) else None;
     repositories.resource.query_fails := false |}.

(** A caller's struct without a primary key. *)
Definition blank : repositories.resource.Resource :=
  {| repositories.resource.Resource_ID := repositories.resource.no_key;
     repositories.resource.Resource_Key := EmptyString;
     repositories.resource.Resource_Name := EmptyString;
     repositories.resource.Resource_Description := EmptyString;
     repositories.resource.Resource_ProjectID := EmptyString |}.

(** The resources of [acme] as the resource service stores them. *)
Definition resources0 : gmap string (list resource.Resource) :=
  {[ "acme" := [ {| resource.ID := "res1"; resource.Key := "invoices";
                    resource.Name := "Invoices" |} ] ]}.

End scenario.

(** * Properties *)

(** C3 (fails on the code): a check request whose metadata is present but
    has no API key entry makes the endpoint panic on the slice index, where
    the claim asks for a returned error. *)
Theorem C3_grpc_Check_missing_api_key_panics :
  forall (s : check.Service) (md : check.MD) (req : check.GrpcCheckRequest),
    md !! "api_key" = None ->
    check.grpc_Check s (Some md) req
    = util.Panic "index out of range [0] with length 0".
Proof.
  intros s md req Hmiss. unfold check.grpc_Check, check.MD_Get.
  change (check.ToLower "API_KEY") with "api_key".
  now rewrite Hmiss.
Qed.

Lemma C3_grpc_Check_missing_api_key_panics_witness :
  (∅ : check.MD) !! "api_key" = None /\
  check.grpc_Check {| check.Check := fun _ _ _ => inl true |} (Some ∅)
    {| check.req_Organization := "acme"; check.req_Username := "alice";
       check.req_Action := "approve"; check.req_Resource := "invoices" |}
  = util.Panic "index out of range [0] with length 0".
Proof.
  split; [reflexivity|].
  apply (C3_grpc_Check_missing_api_key_panics _ ∅); reflexivity.
Defined.

(** ** Role service *)

Section RoleService.
Import util mongo_entity role.
Context {Store : Type} (repo : Repository Store).

(** The service hands the repository the same patch whatever the request
    lists as removed. *)
Lemma PatchPermission_ignores_removed st org_id role_id added removed :
  PatchPermission repo st org_id role_id
    {| Request_AddedPermission := added; Request_RemovedPermission := removed |}
  = PatchPermission repo st org_id role_id
      {| Request_AddedPermission := added; Request_RemovedPermission := [] |}.
Proof. reflexivity. Qed.

(** The validation loop returns the error of the first undeclared pair. *)
Lemma check_added_first st org_id valid p rest :
  Forall (fun q => ~ undeclared repo st org_id q) valid ->
  undeclared repo st org_id p ->
  check_added repo st org_id (valid ++ p :: rest) = Some (role.invalid_permission p).
Proof.
  unfold undeclared. intros Hvalid Hp.
  induction Hvalid as [|q valid Hq _ IH]; simpl.
  - now rewrite Hp.
  - destruct (fst (CheckResourceActionExists repo st org_id _ _)) eqn:E;
      [exact IH | contradiction].
Qed.

(** A list with an undeclared pair splits at its first undeclared pair. *)
Lemma first_undeclared st org_id added :
  Exists (undeclared repo st org_id) added ->
  exists valid p rest,
    added = valid ++ p :: rest
    /\ Forall (fun q => ~ undeclared repo st org_id q) valid
    /\ undeclared repo st org_id p.
Proof.
  induction added as [|q added IH]; intros Hex.
  - inversion Hex.
  - destruct (fst (CheckResourceActionExists repo st org_id
                     (Permission_Resource q) (Permission_Action q))) eqn:E.
    + destruct IH as (valid & p & rest & -> & Hvalid & Hp).
      { inversion Hex as [? ? Hq|]; subst; [|assumption].
        unfold undeclared in Hq. congruence. }
      exists (q :: valid), p, rest. repeat split; [|assumption].
      constructor; [|assumption]. unfold undeclared. congruence.
    + exists [], q, added. repeat split; [constructor | exact E].
Qed.

(** The existence loop either accepts a list of known users or names an
    unknown user of the list in an [InvalidInput] error. *)
Lemma check_users_cases st org_id msg users :
  (check_users repo st org_id msg users = None
   /\ Forall (fun u => ~ missing_user repo st org_id u) users)
  \/ (exists u, u ∈ users /\ missing_user repo st org_id u
        /\ check_users repo st org_id msg users
           = Some (InvalidInputError (msg +:+ ObjectID_String u))).
Proof.
  induction users as [|v users IH]; simpl.
  - left. split; [reflexivity | constructor].
  - destruct (fst (CheckUserExistById repo st org_id (Hex v))) eqn:E.
    + destruct IH as [[Hnone Hall] | (u & Hin & Hu & Heq)].
      * left. split; [assumption|].
        constructor; [unfold missing_user; congruence | assumption].
      * right. exists u. split; [now apply list_elem_of_further|]. now split.
    + right. exists v. split; [apply list_elem_of_here|]. now split.
Qed.


Lemma check_users_missing st org_id msg users :
  Exists (missing_user repo st org_id) users ->
  exists p, check_users repo st org_id msg users = Some (InvalidInputError p).
Proof.
  intros Hex.
  destruct (check_users_cases st org_id msg users)
    as [[_ Hall] | (u & _ & _ & Heq)]; [|eauto].
  apply Exists_exists in Hex as (u & Hin & Hu).
  rewrite Forall_forall in Hall. now destruct (Hall u).
Qed.

Lemma check_users_error st org_id msg users e :
  check_users repo st org_id msg users = Some e ->
  exists p, e = InvalidInputError p.
Proof.
  destruct (check_users_cases st org_id msg users)
    as [[Hnone _] | (u & _ & _ & Heq)]; [congruence|].
  rewrite Heq. intros [= <-]. eauto.
Qed.

(** The two filters of [Update], as filters. *)
Lemma added_users_filter st org_id id users :
  added_users repo st org_id id users
  = filter (fun u => negb (assigned repo st org_id id u)) users.
Proof.
  induction users as [|u users IH]; [reflexivity|].
  simpl. rewrite filter_cons, IH.
  now destruct (assigned repo st org_id id u).
Qed.

Lemma removed_roles_filter st org_id id users :
  removed_roles repo st org_id id users
  = filter (fun u => assigned repo st org_id id u) users.
Proof.
  induction users as [|u users IH]; [reflexivity|].
  simpl. rewrite filter_cons, IH.
  now destruct (assigned repo st org_id id u).
Qed.

End RoleService.

(** C5: a patch that adds an undeclared pair fails with [InvalidInput]
    naming the first such pair of the request, and the store is returned as
    it was: the repository's patch is not reached. *)
Theorem C5_PatchPermission_rejects_undeclared :
  forall (Store : Type) (repo : role.Repository Store) (st : Store)
         (org_id role_id : string) (req : role.PatchRolePermissionRequest),
    Exists (role.undeclared repo st org_id) (role.Request_AddedPermission req) ->
    exists valid p rest,
      role.Request_AddedPermission req = valid ++ p :: rest
      /\ Forall (fun q => ~ role.undeclared repo st org_id q) valid
      /\ role.undeclared repo st org_id p
      /\ role.PatchPermission repo st org_id role_id req
         = (st, Some (role.invalid_permission p)).
Proof.
  intros Store repo st org_id role_id req Hex.
  destruct (first_undeclared repo st org_id _ Hex)
    as (valid & p & rest & Heq & Hvalid & Hp).
  exists valid, p, rest. repeat split; try assumption.
  unfold role.PatchPermission. rewrite Heq.
  now rewrite (check_added_first repo st org_id valid p rest Hvalid Hp).
Qed.

Lemma C5_PatchPermission_rejects_undeclared_witness :
  exists valid p rest,
    [scenario.view_invoices; scenario.delete_ledger; scenario.approve_invoices]
    = valid ++ p :: rest
    /\ Forall (fun q => ~ role.undeclared store.Repository scenario.st0 "acme" q) valid
    /\ role.undeclared store.Repository scenario.st0 "acme" p
    /\ role.PatchPermission store.Repository scenario.st0 "acme" "finance"
         {| role.Request_AddedPermission :=
              [scenario.view_invoices; scenario.delete_ledger;
               scenario.approve_invoices];
            role.Request_RemovedPermission := [] |}
       = (scenario.st0, Some (role.invalid_permission p)).
Proof.
  apply (C5_PatchPermission_rejects_undeclared _ store.Repository scenario.st0
           "acme" "finance"
           {| role.Request_AddedPermission :=
                [scenario.view_invoices; scenario.delete_ledger;
                 scenario.approve_invoices];
              role.Request_RemovedPermission := [] |}).
  apply Exists_cons_tl, Exists_cons_hd. vm_compute. reflexivity.
Defined.

(** C1 (fails on the code): on the running example, a patch that removes
    [(approve, invoices)] from role [finance] succeeds, and yet the pair is
    still in the role's permission set and alice's check still holds: the
    service does not pass the removals on to the repository. *)
Theorem C1_PatchPermission_removal_not_applied :
  let req := {| role.Request_AddedPermission := [];
                role.Request_RemovedPermission := [scenario.approve_invoices] |} in
  let res := role.PatchPermission store.Repository scenario.st0
               "acme" "finance" req in
  snd res = None
  /\ mongo_entity.mem_permission scenario.approve_invoices
       (scenario.permissions_of (fst res) "acme" "finance") = true
  /\ engine.Check {| engine.orgs := fst res; engine.tuples := [] |}
       "acme" "alice" "approve" "invoices" = inl true.
Proof. vm_compute. repeat split. Qed.

(** C7 (as amended): when a role [Create] or [Update] lists a user the
    repository does not know, the operation returns an error and the store
    it was given; the error is [InvalidInput] unless an earlier guard fails
    the request first, that is, unless [Create] finds the identifier taken
    or [Update] does not find the role. *)
Theorem C7_unknown_user_fails_before_write :
  forall (Store : Type) (repo : role.Repository Store) (st : Store)
         (org_id : string),
    (forall (req : role.CreateRoleRequest) (roleId : mongo_entity.ObjectID),
        Exists (role.missing_user repo st org_id)
               (role.CreateRoleRequest_Users req) ->
        exists e,
          role.Create repo st org_id req roleId = (st, inr e)
          /\ (fst (role.CheckRoleExistsByIdentifier repo st org_id
                     (role.CreateRoleRequest_Identifier req)) = false ->
              exists p, e = util.InvalidInputError p))
    /\ (forall (id : string) (req : role.UpdateRoleRequest),
           Exists (role.missing_user repo st org_id)
                  (role.UpdateRoleRequest_AddedUsers req
                   ++ role.UpdateRoleRequest_RemovedUser req) ->
           exists e,
             role.Update repo st org_id id req = (st, inr e)
             /\ (forall r, role.Get repo st org_id id = inl r ->
                 exists p, e = util.InvalidInputError p)).
Proof.
  intros Store repo st org_id. split.
  - intros req roleId Hex. unfold role.Create.
    destruct (role.CreateRoleRequest_Validate req).
    { eexists. split; [reflexivity|]. eauto. }
    destruct (fst (role.CheckRoleExistsByIdentifier repo st org_id _)).
    { eexists. split; [reflexivity|]. discriminate. }
    destruct (check_users_missing repo st org_id "Invalid user id " _ Hex)
      as (p & ->).
    eexists. split; [reflexivity|]. eauto.
  - intros id req Hex. unfold role.Update.
    destruct (role.Get repo st org_id id) as [r|e0].
    2:{ eexists. split; [reflexivity|]. discriminate. }
    destruct (check_users_cases repo st org_id "Invalid role id "
                (role.UpdateRoleRequest_AddedUsers req))
      as [[-> Hadded] | (u & _ & _ & ->)].
    2:{ eexists. split; [reflexivity|]. eauto. }
    apply Exists_app in Hex as [Hex|Hex].
    { apply Exists_exists in Hex as (u & Hin & Hu).
      rewrite Forall_forall in Hadded. now destruct (Hadded u). }
    destruct (check_users_missing repo st org_id "Invalid role id " _ Hex)
      as (p & ->).
    eexists. split; [reflexivity|]. eauto.
Qed.

Lemma C7_unknown_user_fails_before_write_witness :
  exists e,
    role.Update store.Repository scenario.st0 "acme" "finance"
      {| role.UpdateRoleRequest_DisplayName := None;
         role.UpdateRoleRequest_AddedUsers := ["bob"];
         role.UpdateRoleRequest_RemovedUser := ["ghost"] |}
    = (scenario.st0, inr e)
    /\ (forall r, role.Get store.Repository scenario.st0 "acme" "finance" = inl r ->
        exists p, e = util.InvalidInputError p).
Proof.
  apply (proj2 (C7_unknown_user_fails_before_write _ store.Repository
                  scenario.st0 "acme") "finance"
           {| role.UpdateRoleRequest_DisplayName := None;
              role.UpdateRoleRequest_AddedUsers := ["bob"];
              role.UpdateRoleRequest_RemovedUser := ["ghost"] |}).
  apply Exists_cons_tl, Exists_cons_hd. vm_compute. reflexivity.
Defined.

(** C7, as first stated, fails: creating a role under the identifier of an
    existing role while listing an unknown user is refused with
    [AlreadyExists], not with [InvalidInput]. *)
Lemma C7_counterexample_taken_identifier :
  let req := {| role.CreateRoleRequest_Identifier := "finance";
                role.CreateRoleRequest_DisplayName := "Finance";
                role.CreateRoleRequest_Users := ["ghost"] |} in
  role.missing_user store.Repository scenario.st0 "acme" "ghost"
  /\ role.Create store.Repository scenario.st0 "acme" req "r9"
     = (scenario.st0,
        inr (util.AlreadyExistsError "Role : finance already exists."))
  /\ ~ (exists p, snd (role.Create store.Repository scenario.st0 "acme" req "r9")
                  = inr (util.InvalidInputError p)).
Proof.
  vm_compute. repeat split. intros [p Hp]. discriminate Hp.
Qed.

(** ** Group repository *)

Section GroupRepository.
Import util repositories.group.

Lemma with_group_user_same (db : DB) : with_group_user db (group_user db) = db.
Proof. now destruct db. Qed.

(** Adding members that are already there inserts nothing. *)
Lemma add_loop_members f db g users tx :
  Forall (fun u => member db g (UserID_UserID u) = true) users ->
  add_loop f db g users tx = Done tx.
Proof.
  induction 1 as [|u users Hu _ IH]; simpl; [reflexivity|].
  unfold IsUserInGroup. destruct (Query_err f); simpl.
  - exact IH.
  - now rewrite Hu.
Qed.

(** Removing users that are not members deletes nothing. *)
Lemma remove_loop_strangers f db g users tx :
  Forall (fun u => member db g (UserID_UserID u) = false) users ->
  remove_loop f db g users tx = Done tx.
Proof.
  induction 1 as [|u users Hu _ IH]; simpl; [reflexivity|].
  unfold IsUserInGroup. destruct (Query_err f); simpl.
  - exact IH.
  - now rewrite Hu.
Qed.

(** Without faults the add loop inserts the users that are not members, in
    the order of the request. *)
Lemma add_loop_no_faults db g users tx :
  add_loop no_faults db g users tx
  = Done (tx ++ map (fun u => (g, UserID_UserID u))
                    (filter (fun u => negb (member db g (UserID_UserID u))) users)).
Proof.
  revert tx. induction users as [|u users IH]; intros tx; simpl.
  - now rewrite app_nil_r.
  - rewrite filter_cons.
    destruct (member db g (UserID_UserID u)); simpl; [apply IH|].
    rewrite IH, <- app_assoc. reflexivity.
Qed.

Lemma remove_loop_no_faults db g users tx :
  remove_loop no_faults db g users tx
  = Done (delete_rows g (filter (fun u => member db g (UserID_UserID u)) users) tx).
Proof.
  revert tx. induction users as [|u users IH]; intros tx; simpl; [reflexivity|].
  rewrite filter_cons.
  destruct (member db g (UserID_UserID u)); simpl; apply IH.
Qed.

Lemma apply_operations_no_faults db g operations tx :
  exists tx', apply_operations no_faults db g operations tx = Done tx'.
Proof.
  revert tx. induction operations as [|op operations IH]; intros tx; simpl.
  - eauto.
  - assert (exists tx1, apply_operation no_faults db g op tx = Done tx1) as [tx1 ->].
    { unfold apply_operation.
      repeat match goal with |- context [if ?b then _ else _] => destruct b end;
        simpl; rewrite ?add_loop_no_faults, ?remove_loop_no_faults; eauto. }
    apply IH.
Qed.




End GroupRepository.



(** On the running example the update of [finance] that adds alice (a
    member) and bob and removes carol (not a member) leaves alice and bob as
    the members. *)
Example Update_finance_members :
  match role.Update store.Repository scenario.st0 "acme" "finance"
          {| role.UpdateRoleRequest_DisplayName := None;
             role.UpdateRoleRequest_AddedUsers := ["alice"; "bob"];
             role.UpdateRoleRequest_RemovedUser := ["carol"] |} with
  | (_, inl r) => mongo_entity.Role_Users r = ["alice"; "bob"]
  | _ => False
  end.
Proof. vm_compute. reflexivity. Qed.

(** ** Tenant scoping of the group queries *)

Section Filtered.
Context {A : Type} (p q : A -> bool).
Hypothesis implied : forall x, p x = true -> q x = true.

Lemma existsb_filter_implied (l : list A) :
  existsb p (filter q l) = existsb p l.
Proof.
  induction l as [|x l IH]; [reflexivity|].
  rewrite filter_cons. simpl.
  destruct (p x) eqn:Ep; [rewrite (implied x Ep) | destruct (q x)];
    simpl; rewrite ?Ep; auto.
Qed.

Lemma find_filter_implied (l : list A) :
  find p (filter q l) = find p l.
Proof.
  induction l as [|x l IH]; [reflexivity|].
  rewrite filter_cons. simpl.
  destruct (p x) eqn:Ep; [rewrite (implied x Ep) | destruct (q x)];
    simpl; rewrite ?Ep; auto.
Qed.

Lemma filter_filter_implied (l : list A) :
  filter p (filter q l) = filter p l.
Proof.
  induction l as [|x l IH]; [reflexivity|].
  rewrite !filter_cons.
  destruct (p x) eqn:Ep; [rewrite (implied x Ep) | destruct (q x)];
    simpl; rewrite ?filter_cons, ?Ep; simpl; rewrite ?IH; auto.
Qed.

End Filtered.

Section TenantScope.
Import util repositories.group.

Lemma owns_found db tenant id r :
  find (fun r => String.eqb (tenant_id r) tenant && String.eqb (group_id r) id)
       (tenant_group db) = Some r ->
  owns db tenant id = true.
Proof.
  intros Hfind. apply find_some in Hfind as [Hin Hr].
  unfold owns. apply existsb_exists. eauto.
Qed.

Lemma GetGroups_scoped f tenant :
  tenant_scoped tenant (fun db => GetGroups f db tenant).
Proof.
  intros db. unfold GetGroups. destruct (Query_err f); [reflexivity|].
  simpl. now rewrite filter_filter_implied.
Qed.

Lemma GetGroup_scoped f tenant id :
  tenant_scoped tenant (fun db => GetGroup f db tenant id).
Proof.
  intros db. unfold GetGroup. destruct (Query_err f); [reflexivity|].
  simpl.
  rewrite (find_filter_implied
             (fun r => String.eqb (tenant_id r) tenant && String.eqb (group_id r) id)
             (fun r => String.eqb (tenant_id r) tenant))
    by (intros x Hx; now apply andb_prop in Hx).
  destruct (find _ (tenant_group db)) as [r|] eqn:Hfind; [|reflexivity].
  apply owns_found in Hfind.
  rewrite (filter_filter_implied
             (fun gu : string * string => String.eqb (fst gu) id)
             (fun gu => owns db tenant (fst gu))); [reflexivity|].
  intros gu Hgu. apply String.eqb_eq in Hgu. now rewrite Hgu.
Qed.

Lemma CheckGroupExistsByKey_scoped f tenant key :
  tenant_scoped tenant (fun db => CheckGroupExistsByKey f db tenant key).
Proof.
  intros db. unfold CheckGroupExistsByKey. destruct (Query_err f); [reflexivity|].
  simpl.
  rewrite (existsb_filter_implied
             (fun r => String.eqb (tenant_id r) tenant && String.eqb (group_key r) key)
             (fun r => String.eqb (tenant_id r) tenant)); [reflexivity|].
  intros x Hx. now apply andb_prop in Hx.
Qed.

Lemma IsUserInGroup_of_owner f tenant db g u :
  owns db tenant g = true ->
  IsUserInGroup f db g u = IsUserInGroup f (restrict tenant db) g u.
Proof.
  intros Howns. unfold IsUserInGroup, member.
  destruct (Query_err f); [reflexivity|]. simpl.
  rewrite (existsb_filter_implied (row_eqb (g, u))
             (fun gu => owns db tenant (fst gu))); [reflexivity|].
  intros gu Hgu. unfold row_eqb in Hgu. apply andb_prop in Hgu as [Hg _].
  apply String.eqb_eq in Hg. simpl in Hg. now rewrite <- Hg.
Qed.

(** The membership writes touch the rows of the given group only: a
    selection [q] that holds no row of group [g] sees the same rows before
    and after. *)
Section WriteFrame.
Context (q : string * string -> bool) (g : string).
Hypothesis q_g : forall u, q (g, u) = false.

Lemma deleted_row_unselected u (gu : string * string) :
  q gu = true -> negb (row_eqb (g, u) gu) = true.
Proof.
  intros Hq. destruct gu as [g' u']. unfold row_eqb. simpl.
  destruct (String.eqb_spec g g') as [<-|]; [|reflexivity].
  now rewrite q_g in Hq.
Qed.

Lemma add_loop_frame f db users tx tx' :
  add_loop f db g users tx = Done tx' -> filter q tx' = filter q tx.
Proof.
  revert tx. induction users as [|u users IH]; simpl; intros tx H.
  - now injection H as <-.
  - destruct (IsUserInGroup f db g (UserID_UserID u)) as [exists_ user_error].
    destruct (exists_ || bool_decide (user_error <> None)); [now apply IH|].
    destruct (Exec_err f g (UserID_UserID u)); [discriminate|].
    rewrite (IH _ H), filter_app, filter_cons, q_g. simpl.
    now rewrite filter_nil, app_nil_r.
Qed.

Lemma remove_loop_frame f db users tx tx' :
  remove_loop f db g users tx = Done tx' -> filter q tx' = filter q tx.
Proof.
  revert tx. induction users as [|u users IH]; simpl; intros tx H.
  - now injection H as <-.
  - destruct (IsUserInGroup f db g (UserID_UserID u)) as [exists_ user_error].
    destruct (negb exists_ || bool_decide (user_error <> None)); [now apply IH|].
    destruct (Exec_err f g (UserID_UserID u)); [discriminate|].
    rewrite (IH _ H).
    apply (filter_filter_implied q
             (fun gu => negb (row_eqb (g, UserID_UserID u) gu))).
    apply deleted_row_unselected.
Qed.

Lemma apply_operations_frame f db operations tx tx' :
  apply_operations f db g operations tx = Done tx' ->
  filter q tx' = filter q tx.
Proof.
  revert tx. induction operations as [|op operations IH]; simpl; intros tx H.
  - now injection H as <-.
  - destruct (apply_operation f db g op tx) as [tx1|e] eqn:Hop; [|discriminate].
    rewrite (IH _ H). unfold apply_operation in Hop.
    repeat match type of Hop with
           | (if ?b then _ else _) = _ => destruct b
           | match ?o with Some _ => _ | None => _ end = _ => destruct o
           end;
      try discriminate;
      eauto using add_loop_frame, remove_loop_frame.
    all: now injection Hop as <-.
Qed.

End WriteFrame.

Lemma restrict_with_group_user tenant db rows :
  restrict tenant (with_group_user db rows)
  = {| tenant_group :=
         filter (fun r => String.eqb (tenant_id r) tenant) (tenant_group db);
       group_user := filter (fun gu => owns db tenant (fst gu)) rows |}.
Proof. reflexivity. Qed.

Lemma PatchGroup_other_tenant f tenant db g groupPatch db' err :
  owns db tenant g = false ->
  PatchGroup f db g groupPatch = Done (db', err) ->
  restrict tenant db' = restrict tenant db.
Proof.
  intros Howns. unfold PatchGroup.
  destruct (Begin_err f); [now intros [= <- _]|].
  destruct (apply_operations f db g (Operations groupPatch) (group_user db))
    as [tx|e] eqn:Hops; [|discriminate].
  destruct (Commit_err f); intros [= <- _]; [reflexivity|].
  rewrite restrict_with_group_user. unfold restrict. f_equal.
  apply (apply_operations_frame (fun gu => owns db tenant (fst gu)) g)
    with (f := f) (db := db) (operations := Operations groupPatch);
    [|exact Hops].
  intros u. exact Howns.
Qed.

Lemma AddUserToGroup_other_tenant f tenant db g u :
  owns db tenant g = false ->
  restrict tenant (fst (AddUserToGroup f db g u)) = restrict tenant db.
Proof.
  intros Howns. unfold AddUserToGroup.
  destruct (Prepare_err f); [reflexivity|].
  destruct (Exec_err f g u); [reflexivity|].
  cbn [fst]. rewrite restrict_with_group_user. unfold restrict. f_equal.
  rewrite filter_app, filter_cons. cbn [fst]. rewrite Howns. simpl.
  now rewrite filter_nil, app_nil_r.
Qed.

End TenantScope.

(** C2 (as amended): the group queries that are given the tenant identifier
    ([GetGroups], [GetGroup], [CheckGroupExistsByKey]) answer from the
    tenant's own rows.  The statements on [group_user], a table without a
    tenant column, are keyed by the group id: the membership check answers
    from the tenant's rows when the group is one of the tenant's, and the
    membership writes ([PatchGroup], [AddUserToGroup]) leave the rows of a
    tenant that does not own the group as they were. *)
Theorem C2_tenant_keyed_queries_scoped :
  forall (f : repositories.group.Faults) (tenant : string),
    repositories.group.tenant_scoped tenant
      (fun db => repositories.group.GetGroups f db tenant)
    /\ (forall id,
           repositories.group.tenant_scoped tenant
             (fun db => repositories.group.GetGroup f db tenant id))
    /\ (forall key,
           repositories.group.tenant_scoped tenant
             (fun db => repositories.group.CheckGroupExistsByKey f db tenant key))
    /\ (forall db g u,
           repositories.group.owns db tenant g = true ->
           repositories.group.IsUserInGroup f db g u
           = repositories.group.IsUserInGroup f
               (repositories.group.restrict tenant db) g u)
    /\ (forall db g groupPatch db' err,
           repositories.group.owns db tenant g = false ->
           repositories.group.PatchGroup f db g groupPatch
           = repositories.group.Done (db', err) ->
           repositories.group.restrict tenant db'
           = repositories.group.restrict tenant db)
    /\ (forall db g u,
           repositories.group.owns db tenant g = false ->
           repositories.group.restrict tenant
             (fst (repositories.group.AddUserToGroup f db g u))
           = repositories.group.restrict tenant db).
Proof.
  intros f tenant. split; [apply GetGroups_scoped|].
  split; [intros id; apply GetGroup_scoped|].
  split; [intros key; apply CheckGroupExistsByKey_scoped|].
  split; [intros db g u; apply IsUserInGroup_of_owner|].
  split; [intros db g groupPatch db' err; apply PatchGroup_other_tenant|].
  intros db g u. apply AddUserToGroup_other_tenant.
Qed.

Lemma C2_tenant_keyed_queries_scoped_witness :
  let add_bob :=
    {| repositories.group.Operations :=
         [ {| repositories.group.Operation := "add";
              repositories.group.Users :=
                [ {| repositories.group.UserID_UserID := "bob" |} ] |} ] |} in
  let db' :=
    repositories.group.with_group_user scenario.groups_db
      [("g1", "alice"); ("g2", "dave"); ("g1", "bob")] in
  (repositories.group.owns scenario.groups_db "acme" "g1" = true
   /\ repositories.group.IsUserInGroup repositories.group.no_faults
        scenario.groups_db "g1" "alice"
      = repositories.group.IsUserInGroup repositories.group.no_faults
          (repositories.group.restrict "acme" scenario.groups_db) "g1" "alice")
  /\ (repositories.group.owns scenario.groups_db "globex" "g1" = false
      /\ repositories.group.PatchGroup repositories.group.no_faults
           scenario.groups_db "g1" add_bob
         = repositories.group.Done (db', None)
      /\ repositories.group.restrict "globex" db'
         = repositories.group.restrict "globex" scenario.groups_db)
  /\ repositories.group.restrict "globex"
       (fst (repositories.group.AddUserToGroup repositories.group.no_faults
               scenario.groups_db "g1" "bob"))
     = repositories.group.restrict "globex" scenario.groups_db.
Proof.
  intros add_bob db'.
  pose proof (C2_tenant_keyed_queries_scoped repositories.group.no_faults "acme")
    as (_ & _ & _ & Hcheck & _).
  pose proof (C2_tenant_keyed_queries_scoped repositories.group.no_faults "globex")
    as (_ & _ & _ & _ & Hpatch & Hadd).
  split; [split; [reflexivity|]|split; [split; [reflexivity|split; [reflexivity|]]|]].
  - apply (Hcheck scenario.groups_db "g1" "alice"). reflexivity.
  - apply (Hpatch scenario.groups_db "g1" add_bob db' None); reflexivity.
  - apply (Hadd scenario.groups_db "g1" "bob"). reflexivity.
Defined.

(** C2, as first stated, fails: the membership check and the existence
    check by id are given no tenant and answer for the group of another
    tenant.  Group [g1] belongs to [acme]; seen from [globex], whose own
    rows do not hold it, both queries still find it. *)
Lemma C2_counterexample_queries_by_id_unscoped :
  repositories.group.IsUserInGroup repositories.group.no_faults
    scenario.groups_db "g1" "alice" = (true, None)
  /\ repositories.group.IsUserInGroup repositories.group.no_faults
       (repositories.group.restrict "globex" scenario.groups_db) "g1" "alice"
     = (false, None)
  /\ repositories.group.CheckGroupExistsById repositories.group.no_faults
       scenario.groups_db "g1" = (true, None)
  /\ repositories.group.CheckGroupExistsById repositories.group.no_faults
       (repositories.group.restrict "globex" scenario.groups_db) "g1"
     = (false, None)
  /\ ~ repositories.group.tenant_scoped "globex"
         (fun db => repositories.group.IsUserInGroup
                      repositories.group.no_faults db "g1" "alice")
  /\ ~ repositories.group.tenant_scoped "globex"
         (fun db => repositories.group.CheckGroupExistsById
                      repositories.group.no_faults db "g1").
Proof.
  repeat split; try reflexivity.
  - intros H. specialize (H scenario.groups_db). discriminate H.
  - intros H. specialize (H scenario.groups_db). discriminate H.
Qed.

(** ** Resource repository: deletion cascades *)

Section ResourceRepository.
Import repositories.resource.

Lemma elem_of_kept {A : Type} (key : A -> string) (id : string) (l : list A) x :
  x ∈ filter (fun y => negb (String.eqb (key y) id)) l <-> key x <> id /\ x ∈ l.
Proof.
  rewrite list_elem_of_filter.
  destruct (String.eqb_spec (key x) id) as [Heq|Hne]; simpl; intuition.
Qed.

Lemma DeleteResource_unread e db resource res_id :
  reads e res_id = None -> DeleteResource e db resource res_id = db.
Proof.
  intros Hnone. unfold DeleteResource, deleted. rewrite Hnone.
  destruct db as [rs acts perms]. simpl. f_equal.
  induction rs as [|r rs IH]; [reflexivity|].
  rewrite filter_cons. simpl. now rewrite IH.
Qed.

Lemma DeleteResource_resources e db resource res_id id r :
  reads e res_id = Some id ->
  r ∈ resources (DeleteResource e db resource res_id) <->
  r ∈ resources db
  /\ ~ (Resource_ID r = id
        /\ (Resource_ID resource = no_key \/ Resource_ID resource = id)).
Proof.
  intros Hid. unfold DeleteResource, deleted. rewrite Hid. simpl.
  rewrite list_elem_of_filter.
  destruct (String.eqb_spec (Resource_ID r) id) as [Hr|Hr];
    destruct (String.eqb_spec (Resource_ID resource) no_key) as [Hk|Hk];
    destruct (String.eqb_spec (Resource_ID r) (Resource_ID resource)) as [He|He];
    simpl; intuition congruence.
Qed.

Lemma DeleteResource_actions e db resource res_id id a :
  reads e res_id = Some id ->
  a ∈ resource_actions (DeleteResource e db resource res_id) <->
  Action_ResourceID a <> id /\ a ∈ resource_actions db.
Proof.
  intros Hid. unfold DeleteResource. rewrite Hid.
  apply (elem_of_kept Action_ResourceID).
Qed.

Lemma DeleteResource_permissions e db resource res_id id p :
  reads e res_id = Some id ->
  p ∈ role_permissions (DeleteResource e db resource res_id) <->
  Permission_ResourceID p <> id /\ p ∈ role_permissions db.
Proof.
  intros Hid. unfold DeleteResource. rewrite Hid.
  apply (elem_of_kept Permission_ResourceID).
Qed.

End ResourceRepository.

(** C9: [DeleteResource] removes, for the id the database reads in its
    argument, every action of that resource and every role permission that
    references it, and nothing else from those two tables; the resource row
    of that id goes with them unless the caller's struct carries the key of
    another resource; and a database without dangling role permissions
    stays so.  When the database reads no id in the argument, nothing is
    deleted. *)
Theorem C9_DeleteResource_cascades :
  forall (e : repositories.resource.Engine) (db : repositories.resource.DB)
         (resource : repositories.resource.Resource) (res_id : string),
    let db' := repositories.resource.DeleteResource e db resource res_id in
    match repositories.resource.reads e res_id with
    | None => db' = db
    | Some id =>
      (forall a, a ∈ repositories.resource.resource_actions db' <->
                 repositories.resource.Action_ResourceID a <> id
                 /\ a ∈ repositories.resource.resource_actions db)
      /\ (forall p, p ∈ repositories.resource.role_permissions db' <->
                    repositories.resource.Permission_ResourceID p <> id
                    /\ p ∈ repositories.resource.role_permissions db)
      /\ (forall r, r ∈ repositories.resource.resources db' <->
                    r ∈ repositories.resource.resources db
                    /\ ~ (repositories.resource.Resource_ID r = id
                          /\ (repositories.resource.Resource_ID resource
                               = repositories.resource.no_key
                               \/ repositories.resource.Resource_ID resource = id)))
      /\ (repositories.resource.consistent db ->
          repositories.resource.consistent db')
    end.
Proof.
  intros e db resource res_id db'. subst db'.
  destruct (repositories.resource.reads e res_id) as [id|] eqn:Hid;
    [|now apply DeleteResource_unread].
  split; [intros a; now apply DeleteResource_actions|].
  split; [intros p; now apply DeleteResource_permissions|].
  split; [intros r; now apply DeleteResource_resources|].
  intros Hcons p Hp.
  apply (DeleteResource_permissions e db resource res_id id p Hid) in Hp
    as [Hne Hin].
  destruct (Hcons p Hin) as [(r & Hr & Hrid) (a & Ha & Haid & Hares)].
  split.
  - exists r. split; [|assumption].
    apply (DeleteResource_resources e db resource res_id id r Hid).
    split; [assumption|]. intros [Heq _]. congruence.
  - exists a. split; [|now split].
    apply (DeleteResource_actions e db resource res_id id a Hid).
    split; [congruence | assumption].
Qed.

Lemma consistentb_sound (db : repositories.resource.DB) :
  repositories.resource.consistentb db = true ->
  repositories.resource.consistent db.
Proof.
  unfold repositories.resource.consistentb. intros Hall p Hp.
  rewrite forallb_forall in Hall.
  apply list_elem_of_In, Hall, andb_prop in Hp as [Hr Ha].
  apply existsb_exists in Hr as (r & Hr & Hrid).
  apply existsb_exists in Ha as (a & Ha & Haid).
  apply andb_prop in Haid as [Haid Hares].
  apply String.eqb_eq in Hrid, Haid, Hares.
  split; [exists r | exists a]; rewrite list_elem_of_In; auto.
Qed.

Lemma C9_DeleteResource_cascades_witness :
  let db' := repositories.resource.DeleteResource scenario.decimal
               scenario.resources_db scenario.blank "01" in
  (forall a, a ∈ repositories.resource.resource_actions db' <->
             repositories.resource.Action_ResourceID a <> "1"
             /\ a ∈ repositories.resource.resource_actions scenario.resources_db)
  /\ (forall p, p ∈ repositories.resource.role_permissions db' <->
                repositories.resource.Permission_ResourceID p <> "1"
                /\ p ∈ repositories.resource.role_permissions scenario.resources_db)
  /\ (forall r, r ∈ repositories.resource.resources db' <->
                r ∈ repositories.resource.resources scenario.resources_db
                /\ ~ (repositories.resource.Resource_ID r = "1"
                      /\ (repositories.resource.Resource_ID scenario.blank
                           = repositories.resource.no_key
                           \/ repositories.resource.Resource_ID scenario.blank
                              = "1")))
  /\ repositories.resource.consistent db'.
Proof.
  intros db'.
  pose proof (C9_DeleteResource_cascades scenario.decimal scenario.resources_db
                scenario.blank "01") as H.
  change (repositories.resource.reads scenario.decimal "01") with (Some "1") in H.
  destruct H as (Hact & Hperm & Hres & Hcons).
  split; [exact Hact|]. split; [exact Hperm|]. split; [exact Hres|].
  apply Hcons, consistentb_sound. reflexivity.
Defined.

(** Deleting resource [1] of the example, named as ["01"] and with a struct
    that carries no key, leaves resource [2], its action and the permission
    on it.  With a struct that carries the key of resource [2], the row of
    resource [1] stays, without its action and the permission on it. *)
Example DeleteResource_example :
  repositories.resource.DeleteResource scenario.decimal scenario.resources_db
    scenario.blank "01"
  = {| repositories.resource.resources :=
         [ {| repositories.resource.Resource_ID := "2";
              repositories.resource.Resource_Key := "ledger";
              repositories.resource.Resource_Name := "Ledger";
              repositories.resource.Resource_Description := "The ledger";
              repositories.resource.Resource_ProjectID := "p1" |} ];
       repositories.resource.resource_actions :=
         [ {| repositories.resource.Action_ID := "20";
              repositories.resource.Action_ResourceID := "2" |} ];
       repositories.resource.role_permissions :=
         [ {| repositories.resource.Permission_RoleID := "finance";
              repositories.resource.Permission_ResourceID := "2";
              repositories.resource.Permission_ActionID := "20" |} ] |}
  /\ repositories.resource.resources
       (repositories.resource.DeleteResource scenario.decimal
          scenario.resources_db
          {| repositories.resource.Resource_ID := "2";
             repositories.resource.Resource_Key := "ledger";
             repositories.resource.Resource_Name := "Ledger";
             repositories.resource.Resource_Description := "The ledger";
             repositories.resource.Resource_ProjectID := "p1" |} "1")
     = repositories.resource.resources scenario.resources_db.
Proof. split; reflexivity. Qed.

(** ** Resource service *)

(** The duplicate-key guard of [resource.Create] does not look at the
    organization: two organizations get the same [AlreadyExists] answer for
    the same key. *)
Lemma resource_Create_guard_ignores_org :
  forall (Store : Type) (repo : resource.Repository Store) (st : Store)
         (org1 org2 : string) (req : resource.CreateResourceRequest)
         (id : string) (p : string),
    resource.Create repo st org1 req id = (st, inr (util.AlreadyExistsError p)) ->
    fst (resource.ExistByKey repo st (resource.CreateResourceRequest_Key req)) = true ->
    resource.Create repo st org2 req id = (st, inr (util.AlreadyExistsError p)).
Proof.
  intros Store repo st org1 org2 req id p. unfold resource.Create.
  destruct (resource.CreateResourceRequest_Validate req); [discriminate|].
  intros H Hkey. now rewrite Hkey in *.
Qed.

(** C10: [resource.Update] answers [NotFound] and returns the store it was
    given when the resource cannot be read; when it succeeds, the resource
    it wrote and returns is the one it read with the name replaced: same
    [ID], same [Key]. *)
Theorem C10_resource_Update_changes_name_only :
  forall (Store : Type) (repo : resource.Repository Store) (st : Store)
         (org_id id : string) (req : resource.UpdateResourceRequest),
    (forall e, resource.repo_Get repo st org_id id = inr e ->
        resource.Update repo st org_id id req
        = (st, inr (util.NotFoundError ("Resource " +:+ id +:+ " not exists."))))
    /\ (forall st' r',
           resource.Update repo st org_id id req = (st', inl r') ->
           exists r,
             resource.repo_Get repo st org_id id = inl r
             /\ resource.ID r' = resource.ID r
             /\ resource.Key r' = resource.Key r
             /\ resource.Name r' = resource.UpdateResourceRequest_Name req
             /\ resource.repo_Update repo st org_id r' = (st', None)).
Proof.
  intros Store repo st org_id id req. unfold resource.Update, resource.Get.
  simpl. split.
  - intros e ->. reflexivity.
  - intros st' r'. destruct (resource.repo_Get repo st org_id id) as [r|e];
      [|discriminate].
    destruct (resource.repo_Update repo st org_id _) as [st1 [e|]] eqn:Hupd;
      [discriminate|].
    intros [= <- <-]. exists r. repeat split; try reflexivity. exact Hupd.
Qed.

Lemma C10_resource_Update_changes_name_only_witness :
  let req := {| resource.UpdateResourceRequest_Name := "Bills" |} in
  let r' := {| resource.ID := "res1"; resource.Key := "invoices";
               resource.Name := "Bills" |} in
  let st' := fst (resource.Update resource.memory scenario.resources0
                    "acme" "res1" req) in
  resource.Update resource.memory scenario.resources0 "acme" "nope" req
  = (scenario.resources0,
     inr (util.NotFoundError ("Resource " +:+ "nope" +:+ " not exists.")))
  /\ exists r,
      resource.repo_Get resource.memory scenario.resources0 "acme" "res1" = inl r
      /\ resource.ID r' = resource.ID r
      /\ resource.Key r' = resource.Key r
      /\ resource.Name r' = resource.UpdateResourceRequest_Name req
      /\ resource.repo_Update resource.memory scenario.resources0 "acme" r'
         = (st', None).
Proof.
  intros req r' st'. split.
  - apply (proj1 (C10_resource_Update_changes_name_only _ resource.memory
                    scenario.resources0 "acme" "nope" req)
             (util.errorString "sql: no rows in result set")).
    reflexivity.
  - apply (proj2 (C10_resource_Update_changes_name_only _ resource.memory
                    scenario.resources0 "acme" "res1" req) st' r').
    reflexivity.
Defined.

(** In the store of the example the updated resource is read back under
    the same id with its key unchanged. *)
Example Update_then_Get :
  resource.Get resource.memory
    (fst (resource.Update resource.memory scenario.resources0 "acme" "res1"
            {| resource.UpdateResourceRequest_Name := "Bills" |}))
    "acme" "res1"
  = inl {| resource.ID := "res1"; resource.Key := "invoices";
           resource.Name := "Bills" |}.
Proof. vm_compute. reflexivity. Qed.

(** ** Permission handlers *)

(** C4 (fails on the code): [patchPermissions] answers 200 with an empty
    body for every bound request, whatever the service returns; a failed
    patch is acknowledged like a successful one. *)
Theorem C4_patchPermissions_always_acknowledges :
  forall (St : Type) (service : permission.Service St) (st : St)
         (org_id : string) (input : permission.PermissionPatchRequest),
    snd (permission.patchPermissions service st org_id (Some input))
    = util.Return (permission.JSON util.StatusOK (permission.text EmptyString))
    /\ permission.acknowledged
         (permission.patchPermissions service st org_id (Some input)) = true.
Proof.
  intros St service st org_id input.
  unfold permission.acknowledged, permission.patchPermissions.
  destruct (permission.PatchPermissions service st org_id "permission" input).
  split; reflexivity.
Qed.

(** With a service that refuses the command, the sibling handler [create]
    reports status 400 and [patchPermissions] reports success. *)
Example handlers_on_refusal :
  let input := {| permission.Patch_AddedPermissions := [scenario.delete_ledger];
                  permission.Patch_RemovedPermissions := [] |} in
  let tuple := {| engine.SubjectId := "alice"; engine.Relation := "delete";
                  engine.Object := "ledger" |} in
  snd (permission.create scenario.refusing tt "acme" (Some tuple))
  = util.Fail (util.HTTPError 400 "Invalid permission")
  /\ snd (permission.patchPermissions scenario.refusing tt "acme" (Some input))
     = util.Return (permission.JSON 200 (permission.text EmptyString)).
Proof. split; reflexivity. Qed.

(** ** The engine's batch checks *)

Section Batch.
Import util mongo_entity.
Context (db : engine.DB) (org subjectRef : string).

Lemma CheckAll_pointwise pairs bs :
  engine.CheckAll db org subjectRef pairs = inl bs <->
  Forall2 (fun p b =>
             engine.Check db org subjectRef (Permission_Action p)
               (Permission_Resource p) = inl b) pairs bs.
Proof.
  split.
  - revert bs. induction pairs as [|p pairs IH]; simpl; intros bs H.
    + injection H as <-. constructor.
    + destruct (engine.Check db org subjectRef _ _) as [b|e] eqn:Hb;
        [|discriminate].
      destruct (engine.CheckAll db org subjectRef pairs) as [bs0|e];
        [|discriminate].
      injection H as <-. constructor; [exact Hb | now apply IH].
  - induction 1 as [|p b pairs bs Hb _ IH]; simpl; [reflexivity|].
    now rewrite Hb, IH.
Qed.

Lemma CheckPermissions_pointwise actions resource m :
  engine.CheckPermissions db org subjectRef actions resource = inl m <->
  Forall2 (fun a ab => fst ab = a
                       /\ engine.Check db org subjectRef a resource = inl (snd ab))
          actions m.
Proof.
  split.
  - revert m. induction actions as [|a actions IH]; simpl; intros m H.
    + injection H as <-. constructor.
    + destruct (engine.Check db org subjectRef a resource) as [b|e] eqn:Hb;
        [|discriminate].
      destruct (engine.CheckPermissions db org subjectRef actions resource)
        as [m0|e]; [|discriminate].
      injection H as <-. constructor; [now split | now apply IH].
  - induction 1 as [|a [a' b] actions m [Ha Hb] _ IH]; simpl; [reflexivity|].
    simpl in Ha, Hb. subst a'. now rewrite Hb, IH.
Qed.

End Batch.

(** C8: the batch checks agree with the single check, pair by pair and in
    the order of the request.  [CheckAll] returns the list [bs] exactly when
    [Check] returns the i-th element of [bs] for the i-th pair;
    [CheckPermissions] returns the i-th action with what [Check] returns for
    it on the resource; and the two handlers answer 200 with exactly that
    result. *)
Theorem C8_batch_checks_agree_with_Check :
  forall (db : engine.DB) (org subjectRef : string),
    (forall pairs bs,
        engine.CheckAll db org subjectRef pairs = inl bs <->
        Forall2 (fun p b =>
                   engine.Check db org subjectRef
                     (mongo_entity.Permission_Action p)
                     (mongo_entity.Permission_Resource p) = inl b) pairs bs)
    /\ (forall actions resource m,
           engine.CheckPermissions db org subjectRef actions resource = inl m <->
           Forall2 (fun a ab =>
                      fst ab = a
                      /\ engine.Check db org subjectRef a resource = inl (snd ab))
                   actions m)
    /\ (forall base pairs bs,
           permission.checkall (permission.batch_service base) db org
             (Some {| permission.All_Subject := subjectRef;
                      permission.All_Pairs := pairs |})
           = util.Return (permission.JSON util.StatusOK (permission.flags bs)) <->
           engine.CheckAll db org subjectRef pairs = inl bs)
    /\ (forall base actions resource m,
           permission.checkpermissions (permission.batch_service base) db org
             (Some {| permission.Permissions_Subject := subjectRef;
                      permission.Permissions_Actions := actions;
                      permission.Permissions_Resource := resource |})
           = util.Return (permission.JSON util.StatusOK (permission.flag_map m)) <->
           engine.CheckPermissions db org subjectRef actions resource = inl m).
Proof.
  intros db org subjectRef.
  split; [intros pairs bs; apply CheckAll_pointwise|].
  split; [intros actions resource m; apply CheckPermissions_pointwise|].
  split.
  - intros base pairs bs. unfold permission.checkall. simpl.
    destruct (engine.CheckAll db org subjectRef pairs); split; congruence.
  - intros base actions resource m. unfold permission.checkpermissions. simpl.
    destruct (engine.CheckPermissions db org subjectRef actions resource);
      split; congruence.
Qed.

(** The scenario of the specification, on the engine: alice may approve
    invoices through [finance], bob may not, carol may view them through
    the group [auditors]; an undeclared pair is refused, and one refused
    pair fails the batch. *)
Example engine_scenario :
  let db := {| engine.orgs := scenario.st0; engine.tuples := [] |} in
  engine.Check db "acme" "alice" "approve" "invoices" = inl true
  /\ engine.Check db "acme" "bob" "approve" "invoices" = inl false
  /\ engine.Check db "acme" "carol" "view" "invoices" = inl true
  /\ engine.CheckAll db "acme" "alice"
       [scenario.approve_invoices; scenario.view_invoices] = inl [true; false]
  /\ engine.CheckPermissions db "acme" "carol" ["approve"; "view"] "invoices"
     = inl [("approve", false); ("view", true)]
  /\ engine.CheckAll db "acme" "alice"
       [scenario.approve_invoices; scenario.delete_ledger]
     = inr (util.InvalidInputError
              "Invalid permission, Resource : ledger Action : delete").
Proof. vm_compute. repeat split. Qed.

(** Had the removals reached the repository, the pair would be gone and
    alice's check would fail. *)
Example repository_PatchPermission_removes :
  let res := role.repo_PatchPermission store.Repository scenario.st0
               "acme" "finance"
               {| role.AddedPermission := [];
                  role.RemovedPermission := [scenario.approve_invoices] |} in
  snd res = None
  /\ scenario.permissions_of (fst res) "acme" "finance" = []
  /\ engine.Check {| engine.orgs := fst res; engine.tuples := [] |}
       "acme" "alice" "approve" "invoices" = inl false.
Proof. vm_compute. repeat split. Qed.

(** * Further properties of the services *)

(** ** Role service: refusals and what a success guarantees *)

(** [role.Create] refuses a blank identifier with [InvalidInput] and a taken
    identifier with [AlreadyExists] naming it; in both cases the store is
    returned as it was, whatever users the request lists. *)
Theorem role_Create_refusals :
  forall (Store : Type) (repo : role.Repository Store) (st : Store)
         (org_id : string) (req : role.CreateRoleRequest)
         (roleId : mongo_entity.ObjectID),
    (role.CreateRoleRequest_Identifier req = EmptyString ->
     role.Create repo st org_id req roleId
     = (st, inr (util.InvalidInputError "Invalid input for role.")))
    /\ (role.CreateRoleRequest_Identifier req <> EmptyString ->
        fst (role.CheckRoleExistsByIdentifier repo st org_id
               (role.CreateRoleRequest_Identifier req)) = true ->
        role.Create repo st org_id req roleId
        = (st, inr (util.AlreadyExistsError
                      ("Role : " +:+ role.CreateRoleRequest_Identifier req
                       +:+ " already exists.")))).
Proof.
  intros Store repo st org_id req roleId.
  unfold role.Create, role.CreateRoleRequest_Validate. split.
  - intros ->. reflexivity.
  - intros Hid Htaken.
    destruct (String.eqb_spec (role.CreateRoleRequest_Identifier req) EmptyString);
      [contradiction|].
    now rewrite Htaken.
Qed.

Lemma role_Create_refusals_witness :
  role.Create store.Repository scenario.st0 "acme"
    {| role.CreateRoleRequest_Identifier := EmptyString;
       role.CreateRoleRequest_DisplayName := "Nameless";
       role.CreateRoleRequest_Users := ["ghost"] |} "r9"
  = (scenario.st0, inr (util.InvalidInputError "Invalid input for role."))
  /\ role.Create store.Repository scenario.st0 "acme"
       {| role.CreateRoleRequest_Identifier := "readonly";
          role.CreateRoleRequest_DisplayName := "Again";
          role.CreateRoleRequest_Users := [] |} "r9"
     = (scenario.st0,
        inr (util.AlreadyExistsError ("Role : " +:+ "readonly" +:+ " already exists."))).
Proof.
  split.
  - apply (proj1 (role_Create_refusals _ store.Repository scenario.st0 "acme"
                    {| role.CreateRoleRequest_Identifier := EmptyString;
                       role.CreateRoleRequest_DisplayName := "Nameless";
                       role.CreateRoleRequest_Users := ["ghost"] |} "r9")).
    reflexivity.
  - apply (proj2 (role_Create_refusals _ store.Repository scenario.st0 "acme"
                    {| role.CreateRoleRequest_Identifier := "readonly";
                       role.CreateRoleRequest_DisplayName := "Again";
                       role.CreateRoleRequest_Users := [] |} "r9")).
    + discriminate.
    + reflexivity.
Defined.

(** A [role.Create] that returns a role has passed every guard: the
    identifier is not blank and was free, every listed user was known, the
    repository accepted the role built from the request (no groups, no
    permissions), and the returned role is the one read back under the new
    id. *)
Theorem role_Create_success :
  forall (Store : Type) (repo : role.Repository Store) (st st' : Store)
         (org_id : string) (req : role.CreateRoleRequest)
         (roleId : mongo_entity.ObjectID) (r : mongo_entity.Role),
    role.Create repo st org_id req roleId = (st', inl r) ->
    role.CreateRoleRequest_Identifier req <> EmptyString
    /\ fst (role.CheckRoleExistsByIdentifier repo st org_id
              (role.CreateRoleRequest_Identifier req)) = false
    /\ Forall (fun u => ~ role.missing_user repo st org_id u)
              (role.CreateRoleRequest_Users req)
    /\ role.repo_Create repo st org_id
         {| mongo_entity.Role_ID := roleId;
            mongo_entity.Role_Identifier := role.CreateRoleRequest_Identifier req;
            mongo_entity.Role_DisplayName := role.CreateRoleRequest_DisplayName req;
            mongo_entity.Role_Users := role.CreateRoleRequest_Users req;
            mongo_entity.Role_Groups := [];
            mongo_entity.Role_Permissions := [] |} = (st', None)
    /\ role.repo_Get repo st' org_id (mongo_entity.Hex roleId) = inl r.
Proof.
  intros Store repo st st' org_id req roleId r.
  unfold role.Create, role.CreateRoleRequest_Validate.
  destruct (String.eqb_spec (role.CreateRoleRequest_Identifier req) EmptyString)
    as [|Hid]; [discriminate|].
  destruct (fst (role.CheckRoleExistsByIdentifier repo st org_id _)) eqn:Htaken;
    [discriminate|].
  destruct (check_users_cases repo st org_id "Invalid user id "
              (role.CreateRoleRequest_Users req))
    as [[-> Hknown] | (u & _ & _ & ->)]; [|discriminate].
  destruct (role.repo_Create repo st org_id _) as [st1 [e|]] eqn:Hcreate;
    [discriminate|].
  unfold role.Get.
  destruct (role.repo_Get repo st1 org_id (mongo_entity.Hex roleId)) as [r1|e]
    eqn:Hget; [|discriminate].
  intros [= <- <-]. auto.
Qed.

Lemma role_Create_success_witness :
  let req := {| role.CreateRoleRequest_Identifier := "ops";
                role.CreateRoleRequest_DisplayName := "Operations";
                role.CreateRoleRequest_Users := ["bob"] |} in
  let res := role.Create store.Repository scenario.st0 "acme" req "r9" in
  let r := {| mongo_entity.Role_ID := "r9";
              mongo_entity.Role_Identifier := "ops";
              mongo_entity.Role_DisplayName := "Operations";
              mongo_entity.Role_Users := ["bob"];
              mongo_entity.Role_Groups := [];
              mongo_entity.Role_Permissions := [] |} in
  role.CreateRoleRequest_Identifier req <> EmptyString
  /\ fst (role.CheckRoleExistsByIdentifier store.Repository scenario.st0 "acme"
            (role.CreateRoleRequest_Identifier req)) = false
  /\ Forall (fun u => ~ role.missing_user store.Repository scenario.st0 "acme" u)
            (role.CreateRoleRequest_Users req)
  /\ role.repo_Create store.Repository scenario.st0 "acme" r = (fst res, None)
  /\ role.repo_Get store.Repository (fst res) "acme" (mongo_entity.Hex "r9") = inl r.
Proof.
  intros req res r.
  apply (role_Create_success _ store.Repository scenario.st0 (fst res) "acme"
           req "r9" r).
  vm_compute. reflexivity.
Defined.

(** A role the repository cannot read guards every mutation of it:
    [role.Update] and [role.Delete] answer [NotFound] and return the store
    as it was, before any user of the request is looked at. *)
Theorem role_unreadable_role_guard :
  forall (Store : Type) (repo : role.Repository Store) (st : Store)
         (org_id id : string) (e : util.error),
    role.repo_Get repo st org_id id = inr e ->
    role.Get repo st org_id id = inr (util.NotFoundError "Role")
    /\ (forall req,
           role.Update repo st org_id id req
           = (st, inr (util.NotFoundError ("Role " +:+ id +:+ " not exists."))))
    /\ role.Delete repo st org_id id
       = (st, Some (util.NotFoundError ("Resource " +:+ id +:+ " not exists."))).
Proof.
  intros Store repo st org_id id e Hget.
  unfold role.Update, role.Delete, role.Get. rewrite Hget. auto.
Qed.

Lemma role_unreadable_role_guard_witness :
  role.Get store.Repository scenario.st0 "acme" "nobody"
  = inr (util.NotFoundError "Role")
  /\ (forall req,
         role.Update store.Repository scenario.st0 "acme" "nobody" req
         = (scenario.st0,
            inr (util.NotFoundError ("Role " +:+ "nobody" +:+ " not exists."))))
  /\ role.Delete store.Repository scenario.st0 "acme" "nobody"
     = (scenario.st0,
        Some (util.NotFoundError ("Resource " +:+ "nobody" +:+ " not exists."))).
Proof.
  apply (role_unreadable_role_guard _ store.Repository scenario.st0 "acme"
           "nobody" store.no_documents).
  reflexivity.
Defined.

(** A [role.Update] that returns a role found the role, found every listed
    user, had its write of the filtered members accepted, and returns what
    the repository reads back afterwards. *)
Theorem role_Update_success :
  forall (Store : Type) (repo : role.Repository Store) (st st' : Store)
         (org_id id : string) (req : role.UpdateRoleRequest)
         (r : mongo_entity.Role),
    role.Update repo st org_id id req = (st', inl r) ->
    (exists r0, role.repo_Get repo st org_id id = inl r0)
    /\ Forall (fun u => ~ role.missing_user repo st org_id u)
              (role.UpdateRoleRequest_AddedUsers req
               ++ role.UpdateRoleRequest_RemovedUser req)
    /\ role.repo_Update repo st org_id id
         {| role.UpdateRole_DisplayName := role.UpdateRoleRequest_DisplayName req;
            role.UpdateRole_AddedUsers :=
              filter (fun u => negb (role.assigned repo st org_id id u))
                     (role.UpdateRoleRequest_AddedUsers req);
            role.UpdateRole_RemovedUser :=
              filter (fun u => role.assigned repo st org_id id u)
                     (role.UpdateRoleRequest_RemovedUser req) |} = (st', None)
    /\ role.repo_Get repo st' org_id id = inl r.
Proof.
  intros Store repo st st' org_id id req r. unfold role.Update, role.Get.
  destruct (role.repo_Get repo st org_id id) as [r0|e] eqn:Hget; [|discriminate].
  destruct (check_users_cases repo st org_id "Invalid role id "
              (role.UpdateRoleRequest_AddedUsers req))
    as [[-> Hadded] | (u & _ & _ & ->)]; [|discriminate].
  destruct (check_users_cases repo st org_id "Invalid role id "
              (role.UpdateRoleRequest_RemovedUser req))
    as [[-> Hremoved] | (u & _ & _ & ->)]; [|discriminate].
  rewrite added_users_filter, removed_roles_filter.
  destruct (role.repo_Update repo st org_id id _) as [st1 [e|]] eqn:Hupd;
    [discriminate|].
  destruct (role.repo_Get repo st1 org_id id) as [r1|e] eqn:Hread; [|discriminate].
  intros [= <- <-]. repeat split; eauto. now apply Forall_app.
Qed.

Lemma role_Update_success_witness :
  let req := {| role.UpdateRoleRequest_DisplayName := Some "Treasury";
                role.UpdateRoleRequest_AddedUsers := ["alice"; "bob"];
                role.UpdateRoleRequest_RemovedUser := ["carol"] |} in
  let res := role.Update store.Repository scenario.st0 "acme" "finance" req in
  let r := {| mongo_entity.Role_ID := "finance";
              mongo_entity.Role_Identifier := "finance";
              mongo_entity.Role_DisplayName := "Treasury";
              mongo_entity.Role_Users := ["alice"; "bob"];
              mongo_entity.Role_Groups := [];
              mongo_entity.Role_Permissions := [scenario.approve_invoices] |} in
  (exists r0, role.repo_Get store.Repository scenario.st0 "acme" "finance" = inl r0)
  /\ Forall (fun u => ~ role.missing_user store.Repository scenario.st0 "acme" u)
            (role.UpdateRoleRequest_AddedUsers req
             ++ role.UpdateRoleRequest_RemovedUser req)
  /\ role.repo_Update store.Repository scenario.st0 "acme" "finance"
       {| role.UpdateRole_DisplayName := role.UpdateRoleRequest_DisplayName req;
          role.UpdateRole_AddedUsers :=
            filter (fun u => negb (role.assigned store.Repository scenario.st0
                                     "acme" "finance" u))
                   (role.UpdateRoleRequest_AddedUsers req);
          role.UpdateRole_RemovedUser :=
            filter (fun u => role.assigned store.Repository scenario.st0
                               "acme" "finance" u)
                   (role.UpdateRoleRequest_RemovedUser req) |} = (fst res, None)
  /\ role.repo_Get store.Repository (fst res) "acme" "finance" = inl r.
Proof.
  intros req res r.
  apply (role_Update_success _ store.Repository scenario.st0 (fst res) "acme"
           "finance" req r).
  vm_compute. reflexivity.
Defined.

(** A [role.PatchPermission] that returns no error found every added pair
    declared, and its store is the one the repository leaves after a patch
    made of the additions and of no removal. *)
Theorem role_PatchPermission_success :
  forall (Store : Type) (repo : role.Repository Store) (st st' : Store)
         (org_id role_id : string) (req : role.PatchRolePermissionRequest),
    role.PatchPermission repo st org_id role_id req = (st', None) ->
    Forall (fun p => ~ role.undeclared repo st org_id p)
           (role.Request_AddedPermission req)
    /\ role.repo_PatchPermission repo st org_id role_id
         {| role.AddedPermission := role.Request_AddedPermission req;
            role.RemovedPermission := [] |} = (st', None).
Proof.
  intros Store repo st st' org_id role_id req. unfold role.PatchPermission.
  destruct (role.check_added repo st org_id (role.Request_AddedPermission req))
    as [e|] eqn:Hcheck; [discriminate|].
  intros Hpatch. split; [|exact Hpatch].
  apply Forall_forall. intros p Hin Hp.
  assert (Exists (role.undeclared repo st org_id)
                 (role.Request_AddedPermission req)) as Hex
      by (apply Exists_exists; eauto).
  destruct (first_undeclared repo st org_id _ Hex)
    as (valid & q & rest & Heq & Hvalid & Hq).
  rewrite Heq, (check_added_first repo st org_id valid q rest Hvalid Hq) in Hcheck.
  discriminate.
Qed.

Lemma role_PatchPermission_success_witness :
  let req := {| role.Request_AddedPermission := [scenario.view_invoices];
                role.Request_RemovedPermission := [] |} in
  let res := role.PatchPermission store.Repository scenario.st0
               "acme" "finance" req in
  Forall (fun p => ~ role.undeclared store.Repository scenario.st0 "acme" p)
         (role.Request_AddedPermission req)
  /\ role.repo_PatchPermission store.Repository scenario.st0 "acme" "finance"
       {| role.AddedPermission := role.Request_AddedPermission req;
          role.RemovedPermission := [] |} = (fst res, None).
Proof.
  intros req res.
  apply (role_PatchPermission_success _ store.Repository scenario.st0 (fst res)
           "acme" "finance" req).
  vm_compute. reflexivity.
Defined.

(** ** Resource service: refusals and what a success guarantees *)

(** [resource.Create] refuses a blank key with [InvalidInput] and a key the
    repository reports as existing with [AlreadyExists] naming it; the store
    is returned as it was. *)
Theorem resource_Create_refusals :
  forall (Store : Type) (repo : resource.Repository Store) (st : Store)
         (org_id : string) (req : resource.CreateResourceRequest) (id : string),
    (resource.CreateResourceRequest_Key req = EmptyString ->
     resource.Create repo st org_id req id
     = (st, inr (util.InvalidInputError "Invalid input for resource.")))
    /\ (resource.CreateResourceRequest_Key req <> EmptyString ->
        fst (resource.ExistByKey repo st (resource.CreateResourceRequest_Key req))
        = true ->
        resource.Create repo st org_id req id
        = (st, inr (util.AlreadyExistsError
                      ("Resource : " +:+ resource.CreateResourceRequest_Key req
                       +:+ " already exists.")))).
Proof.
  intros Store repo st org_id req id.
  unfold resource.Create, resource.CreateResourceRequest_Validate. split.
  - intros ->. reflexivity.
  - intros Hkey Htaken.
    destruct (String.eqb_spec (resource.CreateResourceRequest_Key req) EmptyString);
      [contradiction|].
    now rewrite Htaken.
Qed.

Lemma resource_Create_refusals_witness :
  resource.Create resource.memory scenario.resources0 "acme"
    {| resource.CreateResourceRequest_Key := EmptyString;
       resource.CreateResourceRequest_Name := "Nameless";
       resource.CreateResourceRequest_OrgID := "acme" |} "res9"
  = (scenario.resources0,
     inr (util.InvalidInputError "Invalid input for resource."))
  /\ resource.Create resource.memory scenario.resources0 "acme"
       {| resource.CreateResourceRequest_Key := "invoices";
          resource.CreateResourceRequest_Name := "Invoices again";
          resource.CreateResourceRequest_OrgID := "acme" |} "res9"
     = (scenario.resources0,
        inr (util.AlreadyExistsError
               ("Resource : " +:+ "invoices" +:+ " already exists."))).
Proof.
  split.
  - apply (proj1 (resource_Create_refusals _ resource.memory scenario.resources0
                    "acme"
                    {| resource.CreateResourceRequest_Key := EmptyString;
                       resource.CreateResourceRequest_Name := "Nameless";
                       resource.CreateResourceRequest_OrgID := "acme" |} "res9")).
    reflexivity.
  - apply (proj2 (resource_Create_refusals _ resource.memory scenario.resources0
                    "acme"
                    {| resource.CreateResourceRequest_Key := "invoices";
                       resource.CreateResourceRequest_Name := "Invoices again";
                       resource.CreateResourceRequest_OrgID := "acme" |} "res9")).
    + discriminate.
    + vm_compute. reflexivity.
Defined.

(** The duplicate-key refusal, on the example: the key [invoices] of [acme]
    is refused to [globex] as well. *)
Lemma resource_Create_guard_ignores_org_witness :
  let req := {| resource.CreateResourceRequest_Key := "invoices";
                resource.CreateResourceRequest_Name := "Our invoices";
                resource.CreateResourceRequest_OrgID := "globex" |} in
  default [] (scenario.resources0 !! "globex") = []
  /\ resource.Create resource.memory scenario.resources0 "globex" req "res9"
     = (scenario.resources0,
        inr (util.AlreadyExistsError "Resource : invoices already exists.")).
Proof.
  intros req. split; [reflexivity|].
  apply (resource_Create_guard_ignores_org _ resource.memory scenario.resources0
           "acme" "globex" req "res9" "Resource : invoices already exists.");
    vm_compute; reflexivity.
Defined.

(** A [resource.Create] that returns a resource had a non-blank key the
    repository did not know, had the resource built from the request
    accepted, and returns what the repository reads back under the new id. *)
Theorem resource_Create_success :
  forall (Store : Type) (repo : resource.Repository Store) (st st' : Store)
         (org_id : string) (req : resource.CreateResourceRequest) (id : string)
         (r : resource.Resource),
    resource.Create repo st org_id req id = (st', inl r) ->
    resource.CreateResourceRequest_Key req <> EmptyString
    /\ fst (resource.ExistByKey repo st (resource.CreateResourceRequest_Key req))
       = false
    /\ resource.repo_Create repo st org_id
         {| resource.ID := id;
            resource.Key := resource.CreateResourceRequest_Key req;
            resource.Name := resource.CreateResourceRequest_Name req |}
       = (st', None)
    /\ resource.repo_Get repo st' org_id id = inl r.
Proof.
  intros Store repo st st' org_id req id r.
  unfold resource.Create, resource.CreateResourceRequest_Validate.
  destruct (String.eqb_spec (resource.CreateResourceRequest_Key req) EmptyString)
    as [|Hkey]; [discriminate|].
  destruct (fst (resource.ExistByKey repo st _)) eqn:Htaken; [discriminate|].
  destruct (resource.repo_Create repo st org_id _) as [st1 [e|]] eqn:Hcreate;
    [discriminate|].
  unfold resource.Get.
  destruct (resource.repo_Get repo st1 org_id id) as [r1|e] eqn:Hget;
    [|discriminate].
  intros [= <- <-]. auto.
Qed.

Lemma resource_Create_success_witness :
  let req := {| resource.CreateResourceRequest_Key := "ledger";
                resource.CreateResourceRequest_Name := "Ledger";
                resource.CreateResourceRequest_OrgID := "acme" |} in
  let r := {| resource.ID := "res9"; resource.Key := "ledger";
              resource.Name := "Ledger" |} in
  let res := resource.Create resource.memory scenario.resources0 "acme" req "res9" in
  resource.CreateResourceRequest_Key req <> EmptyString
  /\ fst (resource.ExistByKey resource.memory scenario.resources0
            (resource.CreateResourceRequest_Key req)) = false
  /\ resource.repo_Create resource.memory scenario.resources0 "acme" r
     = (fst res, None)
  /\ resource.repo_Get resource.memory (fst res) "acme" "res9" = inl r.
Proof.
  intros req r res.
  apply (resource_Create_success _ resource.memory scenario.resources0 (fst res)
           "acme" req "res9" r).
  vm_compute. reflexivity.
Defined.

(** [resource.Delete] answers [NotFound] and returns the store as it was
    when the resource cannot be read; when it succeeds, the repository's
    delete was accepted and the resource returned is the one read before
    the delete. *)
Theorem resource_Delete_outcomes :
  forall (Store : Type) (repo : resource.Repository Store) (st : Store)
         (org_id id : string),
    (forall e, resource.repo_Get repo st org_id id = inr e ->
        resource.Delete repo st org_id id
        = (st, inr (util.NotFoundError ("Resource " +:+ id +:+ " not exists."))))
    /\ (forall st' r,
           resource.Delete repo st org_id id = (st', inl r) ->
           resource.repo_Get repo st org_id id = inl r
           /\ resource.repo_Delete repo st org_id id = (st', None)).
Proof.
  intros Store repo st org_id id. unfold resource.Delete, resource.Get. split.
  - intros e ->. reflexivity.
  - intros st' r.
    destruct (resource.repo_Get repo st org_id id) as [r0|e]; [|discriminate].
    destruct (resource.repo_Delete repo st org_id id) as [st1 [e|]];
      [discriminate|].
    now intros [= <- <-].
Qed.

Lemma resource_Delete_outcomes_witness :
  let r := {| resource.ID := "res1"; resource.Key := "invoices";
              resource.Name := "Invoices" |} in
  let res := resource.Delete resource.memory scenario.resources0 "acme" "res1" in
  resource.Delete resource.memory scenario.resources0 "acme" "nope"
  = (scenario.resources0,
     inr (util.NotFoundError ("Resource " +:+ "nope" +:+ " not exists.")))
  /\ resource.repo_Get resource.memory scenario.resources0 "acme" "res1" = inl r
  /\ resource.repo_Delete resource.memory scenario.resources0 "acme" "res1"
     = (fst res, None).
Proof.
  intros r res. split.
  - apply (proj1 (resource_Delete_outcomes _ resource.memory scenario.resources0
                    "acme" "nope")
             (util.errorString "sql: no rows in result set")).
    reflexivity.
  - apply (proj2 (resource_Delete_outcomes _ resource.memory scenario.resources0
                    "acme" "res1") (fst res) r).
    vm_compute. reflexivity.
Defined.

(** ** Group repository: creation, lookup, deletion, renaming *)

Section GroupLists.
Context {A : Type}.

Lemma find_app_last (p : A -> bool) (l : list A) (x : A) :
  Forall (fun y => p y = false) l -> p x = true -> find p (l ++ [x]) = Some x.
Proof.
  induction 1 as [|y l Hy _ IH]; simpl; intros Hx.
  - now rewrite Hx.
  - rewrite Hy. now apply IH.
Qed.

Lemma filter_none (p : A -> bool) (l : list A) :
  Forall (fun y => p y = false) l -> filter p l = [].
Proof.
  induction 1 as [|y l Hy _ IH]; [reflexivity|].
  rewrite filter_cons, Hy. simpl. exact IH.
Qed.

Lemma filter_all (p : A -> bool) (l : list A) :
  Forall (fun y => p y = true) l -> filter p l = l.
Proof.
  induction 1 as [|y l Hy _ IH]; [reflexivity|].
  rewrite filter_cons, Hy. simpl. now rewrite IH.
Qed.

Lemma existsb_filter_excluded (p q : A -> bool) (l : list A) :
  (forall x, p x = true -> q x = false) -> existsb p (filter q l) = false.
Proof.
  intros Hpq. induction l as [|x l IH]; [reflexivity|].
  rewrite filter_cons. destruct (q x) eqn:Eq; simpl; [|exact IH].
  rewrite IH. destruct (p x) eqn:Ep; [|reflexivity].
  rewrite (Hpq x Ep) in Eq. discriminate.
Qed.

Lemma find_map_stable (p : A -> bool) (h : A -> A) (l : list A) :
  (forall x, p (h x) = p x) ->
  find p (map h l) = option_map h (find p l).
Proof.
  intros Hp. induction l as [|x l IH]; [reflexivity|].
  simpl. rewrite Hp. now destruct (p x).
Qed.

End GroupLists.

Section GroupCreation.
Import util repositories.group.

Lemma row_eqb_true a b : row_eqb a b = true <-> a = b.
Proof.
  destruct a as [g u], b as [g' u']. unfold row_eqb. simpl.
  rewrite andb_true_iff, !String.eqb_eq. split.
  - now intros [-> ->].
  - now intros [= -> ->].
Qed.

Lemma member_elem_of db g u : member db g u = true <-> (g, u) ∈ group_user db.
Proof.
  unfold member. rewrite existsb_exists. split.
  - intros (gu & Hin & Heq). apply row_eqb_true in Heq as <-.
    now apply list_elem_of_In.
  - intros Hin. exists (g, u). split; [now apply list_elem_of_In|].
    now apply row_eqb_true.
Qed.

(** The insert loop, when it ends, has appended one row per listed user. *)
Lemma insert_users_done f g users tx tx' :
  insert_users f g users tx = Done tx' ->
  tx' = tx ++ map (fun u => (g, UserID_UserID u)) users.
Proof.
  revert tx. induction users as [|u users IH]; simpl; intros tx H.
  - injection H as <-. now rewrite app_nil_r.
  - destruct (Exec_err f g (UserID_UserID u)); [discriminate|].
    rewrite (IH _ H), <- app_assoc. reflexivity.
Qed.

Lemma insert_users_no_faults g users tx :
  insert_users no_faults g users tx
  = Done (tx ++ map (fun u => (g, UserID_UserID u)) users).
Proof.
  revert tx. induction users as [|u users IH]; simpl; intros tx.
  - now rewrite app_nil_r.
  - rewrite IH, <- app_assoc. reflexivity.
Qed.

Lemma users_of_rows g (users : list UserID) :
  map (fun gu : string * string => {| UserID_UserID := snd gu |})
      (map (fun u => (g, UserID_UserID u)) users) = users.
Proof.
  induction users as [|[u] users IH]; [reflexivity|]. simpl. now rewrite IH.
Qed.

Lemma CreateGroup_no_faults db tenant group new_id :
  CreateGroup no_faults db tenant group new_id
  = Done ({| tenant_group :=
               tenant_group db
               ++ [ {| group_id := new_id; group_key := Group_Key group;
                       name := Group_Name group; tenant_id := tenant |} ];
             group_user :=
               group_user db
               ++ map (fun u => (new_id, UserID_UserID u)) (Group_Users group) |},
          set_ID group new_id, None).
Proof.
  unfold CreateGroup. simpl. rewrite insert_users_no_faults.
  destruct (Group_Users group); simpl; [|reflexivity].
  now rewrite app_nil_r.
Qed.

End GroupCreation.

(** Creating a group and reading it back: without driver faults and with
    an id no row uses yet, [CreateGroup] returns the group with the new id,
    and [GetGroup] for the same tenant and id then finds a group with that
    id, the tenant, the key, the name, and the users the group was created
    with, each as often as it was listed, in some order. *)
Theorem CreateGroup_then_GetGroup :
  forall (db : repositories.group.DB) (tenant new_id : string)
         (group : repositories.group.Group),
    Forall (fun r => repositories.group.group_id r <> new_id)
           (repositories.group.tenant_group db) ->
    Forall (fun gu => fst gu <> new_id) (repositories.group.group_user db) ->
    exists db' found,
      repositories.group.CreateGroup repositories.group.no_faults db tenant
        group new_id
      = repositories.group.Done
          (db', repositories.group.set_ID group new_id, None)
      /\ repositories.group.GetGroup repositories.group.no_faults db' tenant new_id
         = inl found
      /\ repositories.group.Group_ID found = new_id
      /\ repositories.group.Group_TenantID found = tenant
      /\ repositories.group.Group_Key found = repositories.group.Group_Key group
      /\ repositories.group.Group_Name found = repositories.group.Group_Name group
      /\ repositories.group.Group_Users found
         ≡ₚ repositories.group.Group_Users group.
Proof.
  intros db tenant new_id group Hrows Husers.
  eexists. eexists. split; [apply CreateGroup_no_faults|].
  unfold repositories.group.GetGroup. simpl.
  rewrite find_app_last.
  - rewrite filter_app, filter_none, filter_all, app_nil_l.
    + unfold repositories.group.to_Group. simpl. rewrite users_of_rows.
      repeat split; reflexivity.
    + apply Forall_forall. intros gu Hgu.
      apply list_elem_of_fmap in Hgu as (u & -> & _). simpl.
      apply String.eqb_refl.
    + eapply Forall_impl; [exact Husers|]. intros gu Hne. simpl in Hne.
      now apply String.eqb_neq.
  - eapply Forall_impl; [exact Hrows|]. intros r Hne. simpl in Hne.
    apply andb_false_iff. right. now apply String.eqb_neq.
  - simpl. now rewrite !String.eqb_refl.
Qed.

Lemma CreateGroup_then_GetGroup_witness :
  let group :=
    {| repositories.group.Group_ID := EmptyString;
       repositories.group.Group_Key := "ops";
       repositories.group.Group_Name := "Operations";
       repositories.group.Group_TenantID := "acme";
       repositories.group.Group_Users :=
         [ {| repositories.group.UserID_UserID := "bob" |};
           {| repositories.group.UserID_UserID := "carol" |} ] |} in
  exists db' found,
    repositories.group.CreateGroup repositories.group.no_faults
      scenario.groups_db "acme" group "g3"
    = repositories.group.Done (db', repositories.group.set_ID group "g3", None)
    /\ repositories.group.GetGroup repositories.group.no_faults db' "acme" "g3"
       = inl found
    /\ repositories.group.Group_ID found = "g3"
    /\ repositories.group.Group_TenantID found = "acme"
    /\ repositories.group.Group_Key found = repositories.group.Group_Key group
    /\ repositories.group.Group_Name found = repositories.group.Group_Name group
    /\ repositories.group.Group_Users found
       ≡ₚ repositories.group.Group_Users group.
Proof.
  intros group.
  apply (CreateGroup_then_GetGroup scenario.groups_db "acme" "g3" group).
  - repeat constructor; simpl; discriminate.
  - repeat constructor; simpl; discriminate.
Defined.

(** [CreateGroup] is all or nothing.  When it returns an error, the
    database and the caller's group are as before; when it returns none,
    exactly one group row was appended, carrying the tenant, the key and the
    name, the caller's group has the new id, and one membership row per
    listed user was appended, members or not. *)
Theorem CreateGroup_all_or_nothing :
  forall (f : repositories.group.Faults) (db db' : repositories.group.DB)
         (tenant new_id : string) (group group' : repositories.group.Group)
         (err : option util.error),
    repositories.group.CreateGroup f db tenant group new_id
    = repositories.group.Done (db', group', err) ->
    match err with
    | Some _ => db' = db /\ group' = group
    | None =>
      repositories.group.tenant_group db'
      = repositories.group.tenant_group db
        ++ [ {| repositories.group.group_id := new_id;
                repositories.group.group_key := repositories.group.Group_Key group;
                repositories.group.name := repositories.group.Group_Name group;
                repositories.group.tenant_id := tenant |} ]
      /\ repositories.group.group_user db'
         = repositories.group.group_user db
           ++ map (fun u => (new_id, repositories.group.UserID_UserID u))
                  (repositories.group.Group_Users group)
      /\ group' = repositories.group.set_ID group new_id
    end.
Proof.
  intros f db db' tenant new_id group group' err.
  unfold repositories.group.CreateGroup.
  destruct (repositories.group.Begin_err f); [now intros [= <- <- <-]|].
  destruct (repositories.group.Prepare_err f); [now intros [= <- <- <-]|].
  destruct (repositories.group.Query_err f); [now intros [= <- <- <-]|].
  destruct (0 <? List.length (repositories.group.Group_Users group))%nat eqn:Hlen.
  - destruct (repositories.group.insert_users f new_id _ _) as [tx|e] eqn:Hins;
      [|discriminate].
    apply insert_users_done in Hins as ->.
    destruct (repositories.group.Commit_err f); now intros [= <- <- <-].
  - destruct (repositories.group.Group_Users group); [|discriminate].
    destruct (repositories.group.Commit_err f); intros [= <- <- <-]; auto.
    simpl. now rewrite app_nil_r.
Qed.

Lemma CreateGroup_all_or_nothing_witness :
  let group :=
    {| repositories.group.Group_ID := EmptyString;
       repositories.group.Group_Key := "ops";
       repositories.group.Group_Name := "Operations";
       repositories.group.Group_TenantID := "acme";
       repositories.group.Group_Users :=
         [ {| repositories.group.UserID_UserID := "alice" |};
           {| repositories.group.UserID_UserID := "alice" |} ] |} in
  let db' :=
    {| repositories.group.tenant_group :=
         repositories.group.tenant_group scenario.groups_db
         ++ [ {| repositories.group.group_id := "g3";
                 repositories.group.group_key := "ops";
                 repositories.group.name := "Operations";
                 repositories.group.tenant_id := "acme" |} ];
       repositories.group.group_user :=
         [("g1", "alice"); ("g2", "dave"); ("g3", "alice"); ("g3", "alice")] |} in
  repositories.group.tenant_group db'
  = repositories.group.tenant_group scenario.groups_db
    ++ [ {| repositories.group.group_id := "g3";
            repositories.group.group_key := repositories.group.Group_Key group;
            repositories.group.name := repositories.group.Group_Name group;
            repositories.group.tenant_id := "acme" |} ]
  /\ repositories.group.group_user db'
     = repositories.group.group_user scenario.groups_db
       ++ map (fun u => ("g3", repositories.group.UserID_UserID u))
              (repositories.group.Group_Users group)
  /\ repositories.group.set_ID group "g3" = repositories.group.set_ID group "g3".
Proof.
  intros group db'.
  apply (CreateGroup_all_or_nothing repositories.group.no_faults
           scenario.groups_db db' "acme" "g3" group
           (repositories.group.set_ID group "g3") None).
  reflexivity.
Defined.

(** [AddUserToGroup] inserts without looking: on success the table has one
    more row, also when the user was a member already, and the user is a
    member afterwards; on an error nothing changed. *)
Theorem AddUserToGroup_unconditional :
  forall (f : repositories.group.Faults) (db db' : repositories.group.DB)
         (g u : string) (err : option util.error),
    repositories.group.AddUserToGroup f db g u = (db', err) ->
    match err with
    | Some _ => db' = db
    | None =>
      List.length (repositories.group.group_user db')
      = S (List.length (repositories.group.group_user db))
      /\ repositories.group.member db' g u = true
      /\ repositories.group.tenant_group db' = repositories.group.tenant_group db
    end.
Proof.
  intros f db db' g u err. unfold repositories.group.AddUserToGroup.
  destruct (repositories.group.Prepare_err f); [now intros [= <- <-]|].
  destruct (repositories.group.Exec_err f g u); intros [= <- <-]; [reflexivity|].
  simpl. split; [|split; [|reflexivity]].
  - rewrite length_app. simpl. lia.
  - apply member_elem_of. simpl. apply elem_of_app. right.
    apply list_elem_of_here.
Qed.

Lemma AddUserToGroup_unconditional_witness :
  let db' := repositories.group.with_group_user scenario.groups_db
               [("g1", "alice"); ("g2", "dave"); ("g1", "alice")] in
  List.length (repositories.group.group_user db')
  = S (List.length (repositories.group.group_user scenario.groups_db))
  /\ repositories.group.member db' "g1" "alice" = true
  /\ repositories.group.tenant_group db'
     = repositories.group.tenant_group scenario.groups_db.
Proof.
  intros db'.
  apply (AddUserToGroup_unconditional repositories.group.no_faults
           scenario.groups_db db' "g1" "alice" None).
  reflexivity.
Defined.

Section GroupDeletion.
Import util repositories.group.

Lemma DeleteGroup_done f db tenant id db' :
  DeleteGroup f db tenant id = (db', None) ->
  db' = {| tenant_group :=
             filter (fun r => negb (String.eqb (tenant_id r) tenant
                                    && String.eqb (group_id r) id))
                    (tenant_group db);
           group_user :=
             filter (fun gu => negb (String.eqb (fst gu) id)) (group_user db) |}.
Proof.
  unfold DeleteGroup.
  repeat match goal with
         | |- (match ?o with Some _ => _ | None => _ end) = _ -> _ =>
             destruct o; [discriminate|]
         end.
  now intros [= <-].
Qed.

Lemma owns_after_delete db tenant id t g :
  owns {| tenant_group :=
            filter (fun r => negb (String.eqb (tenant_id r) tenant
                                   && String.eqb (group_id r) id))
                   (tenant_group db);
          group_user :=
            filter (fun gu => negb (String.eqb (fst gu) id)) (group_user db) |}
       t g
  = owns db t g && negb (String.eqb t tenant && String.eqb g id).
Proof.
  unfold owns. simpl.
  destruct (String.eqb t tenant && String.eqb g id) eqn:Hsame.
  - rewrite andb_false_r. apply existsb_filter_excluded.
    intros r Hr. apply andb_prop in Hr as [Ht Hg].
    apply String.eqb_eq in Ht, Hg.
    apply andb_prop in Hsame as [Ht' Hg'].
    apply String.eqb_eq in Ht', Hg'. subst.
    now rewrite !String.eqb_refl.
  - rewrite andb_true_r. apply existsb_filter_implied.
    intros r Hr. apply andb_prop in Hr as [Ht Hg].
    apply String.eqb_eq in Ht, Hg. subst. now rewrite Hsame.
Qed.

Lemma member_after_delete db tenant id g u :
  member {| tenant_group :=
              filter (fun r => negb (String.eqb (tenant_id r) tenant
                                     && String.eqb (group_id r) id))
                     (tenant_group db);
            group_user :=
              filter (fun gu => negb (String.eqb (fst gu) id)) (group_user db) |}
         g u
  = member db g u && negb (String.eqb g id).
Proof.
  unfold member. simpl. destruct (String.eqb_spec g id) as [->|Hne]; simpl.
  - rewrite andb_false_r. apply existsb_filter_excluded.
    intros gu Hgu. apply row_eqb_true in Hgu as <-. simpl.
    now rewrite String.eqb_refl.
  - rewrite andb_true_r. apply existsb_filter_implied.
    intros gu Hgu. apply row_eqb_true in Hgu as <-. simpl.
    apply negb_true_iff. now apply String.eqb_neq.
Qed.

End GroupDeletion.

(** [DeleteGroup] is all or nothing, and when it succeeds: the tenant no
    longer owns a group of that id and every other ownership is as before;
    the group of that id has no member left, whichever tenant owns it, and
    every other membership is as before. *)
Theorem DeleteGroup_effects :
  forall (f : repositories.group.Faults) (db db' : repositories.group.DB)
         (tenant id : string) (err : option util.error),
    repositories.group.DeleteGroup f db tenant id = (db', err) ->
    match err with
    | Some _ => db' = db
    | None =>
      (forall t g,
          repositories.group.owns db' t g
          = repositories.group.owns db t g
            && negb (String.eqb t tenant && String.eqb g id))
      /\ (forall g u,
             repositories.group.member db' g u
             = repositories.group.member db g u && negb (String.eqb g id))
    end.
Proof.
  intros f db db' tenant id [e|] H.
  - revert H. unfold repositories.group.DeleteGroup.
    repeat match goal with
           | |- (match ?o with Some _ => _ | None => _ end) = _ -> _ =>
               destruct o; [now intros [= <- _]|]
           end.
    discriminate.
  - apply DeleteGroup_done in H as ->. split.
    + intros t g. apply owns_after_delete.
    + intros g u. apply member_after_delete.
Qed.

(** [globex] deletes the group id [g1], which [acme] owns: [acme] keeps
    the group and loses its members. *)
Lemma DeleteGroup_effects_witness :
  let db' := fst (repositories.group.DeleteGroup repositories.group.no_faults
                    scenario.groups_db "globex" "g1") in
  (forall t g,
      repositories.group.owns db' t g
      = repositories.group.owns scenario.groups_db t g
        && negb (String.eqb t "globex" && String.eqb g "g1"))
  /\ (forall g u,
         repositories.group.member db' g u
         = repositories.group.member scenario.groups_db g u
           && negb (String.eqb g "g1")).
Proof.
  intros db'.
  apply (DeleteGroup_effects repositories.group.no_faults scenario.groups_db db'
           "globex" "g1" None).
  reflexivity.
Defined.

Section GroupRenaming.
Import util repositories.group.

Lemma UpdateGroup_done f db group db' :
  UpdateGroup f db group = (db', None) ->
  db' = {| tenant_group :=
             map (fun r => if String.eqb (tenant_id r) (Group_TenantID group)
                              && String.eqb (group_id r) (Group_ID group)
                           then rename r (Group_Name group) else r)
                 (tenant_group db);
           group_user := group_user db |}.
Proof.
  unfold UpdateGroup.
  destruct (Prepare_err f); [discriminate|].
  destruct (Exec_err f _ _); [discriminate|].
  now intros [= <-].
Qed.

End GroupRenaming.

(** [UpdateGroup] changes a name and nothing else.  On an error the
    database is as before.  On success every [GetGroup] answers as before,
    except for the tenant and id of the update, where the group found has
    the new name and the same id, key, tenant and users; no group appears
    or disappears. *)
Theorem UpdateGroup_renames_only :
  forall (f : repositories.group.Faults) (db db' : repositories.group.DB)
         (group : repositories.group.Group) (err : option util.error),
    repositories.group.UpdateGroup f db group = (db', err) ->
    match err with
    | Some _ => db' = db
    | None =>
      repositories.group.group_user db' = repositories.group.group_user db
      /\ forall f' t g,
          repositories.group.GetGroup f' db' t g
          = match repositories.group.GetGroup f' db t g with
            | inl found =>
              inl (if String.eqb t (repositories.group.Group_TenantID group)
                      && String.eqb g (repositories.group.Group_ID group)
                   then {| repositories.group.Group_ID :=
                             repositories.group.Group_ID found;
                           repositories.group.Group_Key :=
                             repositories.group.Group_Key found;
                           repositories.group.Group_Name :=
                             repositories.group.Group_Name group;
                           repositories.group.Group_TenantID :=
                             repositories.group.Group_TenantID found;
                           repositories.group.Group_Users :=
                             repositories.group.Group_Users found |}
                   else found)
            | inr e => inr e
            end
    end.
Proof.
  intros f db db' group [e|] H.
  - revert H. unfold repositories.group.UpdateGroup.
    destruct (repositories.group.Prepare_err f); [now intros [= <- _]|].
    destruct (repositories.group.Exec_err f _ _); [now intros [= <- _]|].
    discriminate.
  - apply UpdateGroup_done in H as ->. split; [reflexivity|].
    intros f' t g. unfold repositories.group.GetGroup.
    destruct (repositories.group.Query_err f'); [reflexivity|]. simpl.
    rewrite find_map_stable.
    2:{ intros r.
        now destruct (String.eqb (repositories.group.tenant_id r)
                        (repositories.group.Group_TenantID group)
                      && String.eqb (repositories.group.group_id r)
                           (repositories.group.Group_ID group)). }
    destruct (find _ (repositories.group.tenant_group db)) as [r|] eqn:Hfind;
      [|reflexivity].
    simpl. apply find_some in Hfind as [_ Hr].
    apply andb_prop in Hr as [Ht Hg]. apply String.eqb_eq in Ht, Hg. subst t g.
    now destruct (String.eqb (repositories.group.tenant_id r)
                    (repositories.group.Group_TenantID group)
                  && String.eqb (repositories.group.group_id r)
                       (repositories.group.Group_ID group)).
Qed.

Lemma UpdateGroup_renames_only_witness :
  let group :=
    {| repositories.group.Group_ID := "g1";
       repositories.group.Group_Key := "ignored";
       repositories.group.Group_Name := "Inspectors";
       repositories.group.Group_TenantID := "acme";
       repositories.group.Group_Users := [] |} in
  let db' := fst (repositories.group.UpdateGroup repositories.group.no_faults
                    scenario.groups_db group) in
  repositories.group.group_user db'
  = repositories.group.group_user scenario.groups_db
  /\ forall f' t g,
      repositories.group.GetGroup f' db' t g
      = match repositories.group.GetGroup f' scenario.groups_db t g with
        | inl found =>
          inl (if String.eqb t (repositories.group.Group_TenantID group)
                  && String.eqb g (repositories.group.Group_ID group)
               then {| repositories.group.Group_ID :=
                         repositories.group.Group_ID found;
                       repositories.group.Group_Key :=
                         repositories.group.Group_Key found;
                       repositories.group.Group_Name :=
                         repositories.group.Group_Name group;
                       repositories.group.Group_TenantID :=
                         repositories.group.Group_TenantID found;
                       repositories.group.Group_Users :=
                         repositories.group.Group_Users found |}
               else found)
        | inr e => inr e
        end.
Proof.
  intros group db'.
  apply (UpdateGroup_renames_only repositories.group.no_faults
           scenario.groups_db db' group None).
  reflexivity.
Defined.

(** ** Group repository: patches *)

Section GroupPatches.
Import util repositories.group.

Lemma PatchGroup_add_no_faults db g users :
  PatchGroup no_faults db g (add_patch users)
  = Done (with_group_user db
            (group_user db
             ++ map (fun u => (g, UserID_UserID u))
                    (filter (fun u => negb (member db g (UserID_UserID u))) users)),
          None).
Proof.
  unfold PatchGroup, add_patch. simpl. unfold apply_operation. simpl.
  rewrite add_loop_no_faults. destruct users; simpl; [|reflexivity].
  now rewrite app_nil_r.
Qed.

Lemma PatchGroup_remove_no_faults db g users :
  PatchGroup no_faults db g (remove_patch users)
  = Done (with_group_user db
            (delete_rows g
               (filter (fun u => member db g (UserID_UserID u)) users)
               (group_user db)),
          None).
Proof.
  unfold PatchGroup, remove_patch. simpl. unfold apply_operation. simpl.
  rewrite remove_loop_no_faults. now destruct users.
Qed.

(** Deleting rows only removes rows, and removes the rows of every listed
    user. *)
Lemma delete_rows_subset g users tx gu :
  gu ∈ delete_rows g users tx -> gu ∈ tx.
Proof.
  revert tx. induction users as [|u users IH]; intros tx; simpl; [auto|].
  intros Hin. apply IH, list_elem_of_filter in Hin. tauto.
Qed.

Lemma delete_rows_gone g users tx u :
  u ∈ users -> (g, UserID_UserID u) ∉ delete_rows g users tx.
Proof.
  revert tx. induction users as [|v users IH]; intros tx Hin;
    [now apply elem_of_nil in Hin|].
  simpl. apply elem_of_cons in Hin as [->|Hin]; [|now apply IH].
  intros Hrow. apply delete_rows_subset, list_elem_of_filter in Hrow as [Hne _].
  assert (row_eqb (g, UserID_UserID v) (g, UserID_UserID v) = true) as Heq
      by now apply row_eqb_true.
  rewrite Heq in Hne. exact Hne.
Qed.

Lemma member_after_add db g users u :
  u ∈ users ->
  member (with_group_user db
            (group_user db
             ++ map (fun u => (g, UserID_UserID u))
                    (filter (fun u => negb (member db g (UserID_UserID u))) users)))
         g (UserID_UserID u) = true.
Proof.
  intros Hin. apply member_elem_of. simpl. apply elem_of_app.
  destruct (member db g (UserID_UserID u)) eqn:Hm.
  - left. now apply member_elem_of.
  - right. apply list_elem_of_fmap. exists u. split; [reflexivity|].
    apply list_elem_of_filter. split; [now rewrite Hm | assumption].
Qed.

Lemma member_after_remove db g users u :
  u ∈ users ->
  member (with_group_user db
            (delete_rows g
               (filter (fun u => member db g (UserID_UserID u)) users)
               (group_user db)))
         g (UserID_UserID u) = false.
Proof.
  intros Hin. apply not_true_is_false. rewrite member_elem_of. simpl.
  destruct (member db g (UserID_UserID u)) eqn:Hm.
  - apply delete_rows_gone, list_elem_of_filter. split; [now rewrite Hm | assumption].
  - intros Hrow. apply delete_rows_subset in Hrow.
    apply member_elem_of in Hrow. congruence.
Qed.

Lemma PatchGroup_add_members f db g users :
  Begin_err f = None -> Prepare_err f = None -> Commit_err f = None ->
  Forall (fun u => member db g (UserID_UserID u) = true) users ->
  PatchGroup f db g (add_patch users) = Done (db, None).
Proof.
  intros Hbegin Hprepare Hcommit Hall. unfold PatchGroup, add_patch.
  rewrite Hbegin. simpl. unfold apply_operation. simpl. rewrite Hprepare.
  rewrite (add_loop_members f db g users _ Hall).
  destruct (0 <? List.length users)%nat;
    now rewrite Hcommit, with_group_user_same.
Qed.

Lemma PatchGroup_remove_strangers f db g users :
  Begin_err f = None -> Prepare_err f = None -> Commit_err f = None ->
  Forall (fun u => member db g (UserID_UserID u) = false) users ->
  PatchGroup f db g (remove_patch users) = Done (db, None).
Proof.
  intros Hbegin Hprepare Hcommit Hall. unfold PatchGroup, remove_patch.
  rewrite Hbegin. simpl. unfold apply_operation. simpl. rewrite Hprepare.
  rewrite (remove_loop_strangers f db g users _ Hall).
  destruct (0 <? List.length users)%nat;
    now rewrite Hcommit, with_group_user_same.
Qed.

(** Operations that are neither [add] nor [remove], and operations without
    users, leave the transaction's rows alone and prepare no statement. *)
Lemma apply_operations_idle f db g operations tx :
  Forall (fun op => (Operation op <> "add" /\ Operation op <> "remove")
                    \/ Users op = []) operations ->
  apply_operations f db g operations tx = Done tx.
Proof.
  induction 1 as [|op operations Hop _ IH]; simpl; [reflexivity|].
  assert (apply_operation f db g op tx = Done tx) as ->; [|exact IH].
  unfold apply_operation. destruct Hop as [[Hadd Hremove] | ->].
  - apply String.eqb_neq in Hadd, Hremove. now rewrite Hadd, Hremove.
  - simpl. now repeat destruct (String.eqb _ _).
Qed.

End GroupPatches.

(** [PatchGroup] is a transaction on [group_user]: when it returns an
    error the database is as before, and in no case does it touch
    [tenant_group].  Operations other than [add] and [remove], and
    operations without users, change nothing and need no statement: such a
    patch succeeds as soon as the transaction opens and commits. *)
Theorem PatchGroup_transaction :
  forall (f : repositories.group.Faults) (db : repositories.group.DB)
         (g : string) (groupPatch : repositories.group.GroupPatchRequest),
    (forall db' err,
        repositories.group.PatchGroup f db g groupPatch
        = repositories.group.Done (db', err) ->
        repositories.group.tenant_group db' = repositories.group.tenant_group db
        /\ (err <> None -> db' = db))
    /\ (repositories.group.Begin_err f = None ->
        repositories.group.Commit_err f = None ->
        Forall (fun op =>
                  (repositories.group.Operation op <> "add"
                   /\ repositories.group.Operation op <> "remove")
                  \/ repositories.group.Users op = [])
               (repositories.group.Operations groupPatch) ->
        repositories.group.PatchGroup f db g groupPatch
        = repositories.group.Done (db, None)).
Proof.
  intros f db g groupPatch. unfold repositories.group.PatchGroup. split.
  - intros db' err.
    destruct (repositories.group.Begin_err f); [now intros [= <- <-]|].
    destruct (repositories.group.apply_operations f db g _ _) as [tx|e];
      [|discriminate].
    destruct (repositories.group.Commit_err f); intros [= <- <-];
      split; auto; congruence.
  - intros -> -> Hidle.
    rewrite (apply_operations_idle f db g _ _ Hidle).
    now rewrite with_group_user_same.
Qed.

Lemma PatchGroup_transaction_witness :
  let f := {| repositories.group.Begin_err := None;
              repositories.group.Prepare_err :=
                Some (util.errorString "prepare refused");
              repositories.group.Exec_err := fun _ _ => None;
              repositories.group.Query_err := None;
              repositories.group.Commit_err := None |} in
  let patch :=
    {| repositories.group.Operations :=
         [ {| repositories.group.Operation := "replace";
              repositories.group.Users :=
                [ {| repositories.group.UserID_UserID := "bob" |} ] |};
           {| repositories.group.Operation := "add";
              repositories.group.Users := [] |} ] |} in
  repositories.group.PatchGroup f scenario.groups_db "g1" patch
  = repositories.group.Done (scenario.groups_db, None)
  /\ repositories.group.tenant_group scenario.groups_db
     = repositories.group.tenant_group scenario.groups_db.
Proof.
  intros f patch.
  pose proof (PatchGroup_transaction f scenario.groups_db "g1" patch)
    as [Hany Hidle].
  assert (repositories.group.PatchGroup f scenario.groups_db "g1" patch
          = repositories.group.Done (scenario.groups_db, None)) as Hrun.
  { apply Hidle; [reflexivity | reflexivity |].
    repeat constructor; simpl; discriminate. }
  split; [exact Hrun|].
  exact (proj1 (Hany scenario.groups_db None Hrun)).
Defined.

(** Write then look up, without driver faults: after an [add] patch every
    listed user is a member of the group, and after a [remove] patch none of
    them is. *)
Theorem PatchGroup_then_member :
  forall (db db' : repositories.group.DB) (g : string)
         (users : list repositories.group.UserID),
    (repositories.group.PatchGroup repositories.group.no_faults db g
       (repositories.group.add_patch users)
     = repositories.group.Done (db', None) ->
     forall u, u ∈ users ->
       repositories.group.IsUserInGroup repositories.group.no_faults db' g
         (repositories.group.UserID_UserID u) = (true, None))
    /\ (repositories.group.PatchGroup repositories.group.no_faults db g
          (repositories.group.remove_patch users)
        = repositories.group.Done (db', None) ->
        forall u, u ∈ users ->
          repositories.group.IsUserInGroup repositories.group.no_faults db' g
            (repositories.group.UserID_UserID u) = (false, None)).
Proof.
  intros db db' g users. split.
  - rewrite PatchGroup_add_no_faults. intros [= <-] u Hin.
    unfold repositories.group.IsUserInGroup. simpl.
    now rewrite member_after_add.
  - rewrite PatchGroup_remove_no_faults. intros [= <-] u Hin.
    unfold repositories.group.IsUserInGroup. simpl.
    now rewrite member_after_remove.
Qed.

Lemma PatchGroup_then_member_witness :
  let users := [ {| repositories.group.UserID_UserID := "alice" |};
                 {| repositories.group.UserID_UserID := "bob" |} ] in
  let added := repositories.group.with_group_user scenario.groups_db
                 [("g1", "alice"); ("g2", "dave"); ("g1", "bob")] in
  let removed := repositories.group.with_group_user scenario.groups_db
                   [("g2", "dave")] in
  (forall u, u ∈ users ->
     repositories.group.IsUserInGroup repositories.group.no_faults added "g1"
       (repositories.group.UserID_UserID u) = (true, None))
  /\ (forall u, u ∈ users ->
        repositories.group.IsUserInGroup repositories.group.no_faults removed "g1"
          (repositories.group.UserID_UserID u) = (false, None)).
Proof.
  intros users added removed. split.
  - apply (proj1 (PatchGroup_then_member scenario.groups_db added "g1" users)).
    reflexivity.
  - apply (proj2 (PatchGroup_then_member scenario.groups_db removed "g1" users)).
    reflexivity.
Defined.

(** Repeating a patch changes nothing more: without driver faults, the
    database an [add] patch (or a [remove] patch) leaves is a fixed point of
    the same patch. *)
Theorem PatchGroup_idempotent :
  forall (db db' : repositories.group.DB) (g : string)
         (users : list repositories.group.UserID),
    (repositories.group.PatchGroup repositories.group.no_faults db g
       (repositories.group.add_patch users)
     = repositories.group.Done (db', None) ->
     repositories.group.PatchGroup repositories.group.no_faults db' g
       (repositories.group.add_patch users)
     = repositories.group.Done (db', None))
    /\ (repositories.group.PatchGroup repositories.group.no_faults db g
          (repositories.group.remove_patch users)
        = repositories.group.Done (db', None) ->
        repositories.group.PatchGroup repositories.group.no_faults db' g
          (repositories.group.remove_patch users)
        = repositories.group.Done (db', None)).
Proof.
  intros db db' g users. split.
  - rewrite PatchGroup_add_no_faults. intros [= <-].
    apply PatchGroup_add_members; try reflexivity.
    apply Forall_forall. intros u Hin. now apply member_after_add.
  - rewrite PatchGroup_remove_no_faults. intros [= <-].
    apply PatchGroup_remove_strangers; try reflexivity.
    apply Forall_forall. intros u Hin. now apply member_after_remove.
Qed.

Lemma PatchGroup_idempotent_witness :
  let users := [ {| repositories.group.UserID_UserID := "alice" |};
                 {| repositories.group.UserID_UserID := "bob" |};
                 {| repositories.group.UserID_UserID := "bob" |} ] in
  let added := repositories.group.with_group_user scenario.groups_db
                 [("g1", "alice"); ("g2", "dave"); ("g1", "bob"); ("g1", "bob")] in
  let removed := repositories.group.with_group_user scenario.groups_db
                   [("g2", "dave")] in
  repositories.group.PatchGroup repositories.group.no_faults added "g1"
    (repositories.group.add_patch users)
  = repositories.group.Done (added, None)
  /\ repositories.group.PatchGroup repositories.group.no_faults removed "g1"
       (repositories.group.remove_patch users)
     = repositories.group.Done (removed, None).
Proof.
  intros users added removed. split.
  - apply (proj1 (PatchGroup_idempotent scenario.groups_db added "g1" users)).
    reflexivity.
  - apply (proj2 (PatchGroup_idempotent scenario.groups_db removed "g1" users)).
    reflexivity.
Defined.

(** ** Group repository: the queries agree with each other *)

(** What [GetGroup] finds is what the other queries see: the group it
    returns has the requested id and tenant, the tenant owns it, the
    existence check by id holds, and its users are exactly the users the
    membership check accepts for the group id.  Without a query fault it
    finds a group exactly when the tenant owns one of that id. *)
Theorem GetGroup_agrees_with_checks :
  forall (f : repositories.group.Faults) (db : repositories.group.DB)
         (tenant id : string),
    (forall found,
        repositories.group.GetGroup f db tenant id = inl found ->
        repositories.group.Group_ID found = id
        /\ repositories.group.Group_TenantID found = tenant
        /\ repositories.group.owns db tenant id = true
        /\ repositories.group.CheckGroupExistsById repositories.group.no_faults
             db id = (true, None)
        /\ forall u,
            {| repositories.group.UserID_UserID := u |}
              ∈ repositories.group.Group_Users found
            <-> repositories.group.IsUserInGroup repositories.group.no_faults
                  db id u = (true, None))
    /\ ((exists found,
            repositories.group.GetGroup repositories.group.no_faults db tenant id
            = inl found)
        <-> repositories.group.owns db tenant id = true).
Proof.
  intros f db tenant id. split.
  - intros found. unfold repositories.group.GetGroup.
    destruct (repositories.group.Query_err f); [discriminate|].
    destruct (find _ (repositories.group.tenant_group db)) as [r|] eqn:Hfind;
      [|discriminate].
    intros [= <-]. pose proof (owns_found db tenant id r Hfind) as Howns.
    apply find_some in Hfind as [Hin Hr].
    apply andb_prop in Hr as [Ht Hg]. apply String.eqb_eq in Ht, Hg.
    simpl. repeat split; try assumption.
    + unfold repositories.group.CheckGroupExistsById. simpl. f_equal.
      apply existsb_exists. exists r. split; [assumption|].
      now apply String.eqb_eq.
    + intros Hu. apply list_elem_of_fmap in Hu as ([g' u'] & [= ->] & Hrow).
      apply list_elem_of_filter in Hrow as [Hg' Hrow]. simpl in Hg'.
      apply Is_true_true, String.eqb_eq in Hg'. subst g'.
      unfold repositories.group.IsUserInGroup. simpl. f_equal.
      now apply member_elem_of.
    + unfold repositories.group.IsUserInGroup. simpl. intros [= Hm].
      apply member_elem_of in Hm. apply list_elem_of_fmap.
      exists (id, u). split; [reflexivity|].
      apply list_elem_of_filter. split; [|assumption].
      simpl. now rewrite String.eqb_refl.
  - unfold repositories.group.GetGroup, repositories.group.owns. simpl. split.
    + intros [found Hfound].
      destruct (find _ (repositories.group.tenant_group db)) as [r|] eqn:Hfind;
        [|discriminate].
      now apply owns_found in Hfind.
    + intros Howns. apply existsb_exists in Howns as (r & Hin & Hr).
      destruct (find (fun r => String.eqb (repositories.group.tenant_id r) tenant
                               && String.eqb (repositories.group.group_id r) id)
                     (repositories.group.tenant_group db)) as [r'|] eqn:Hfind;
        [eauto|].
      pose proof (find_none _ _ Hfind r Hin) as Hnone. simpl in Hnone.
      congruence.
Qed.

Lemma GetGroup_agrees_with_checks_witness :
  let found :=
    {| repositories.group.Group_ID := "g1";
       repositories.group.Group_Key := "auditors";
       repositories.group.Group_Name := "Auditors";
       repositories.group.Group_TenantID := "acme";
       repositories.group.Group_Users :=
         [ {| repositories.group.UserID_UserID := "alice" |} ] |} in
  repositories.group.Group_ID found = "g1"
  /\ repositories.group.Group_TenantID found = "acme"
  /\ repositories.group.owns scenario.groups_db "acme" "g1" = true
  /\ repositories.group.CheckGroupExistsById repositories.group.no_faults
       scenario.groups_db "g1" = (true, None)
  /\ forall u,
      {| repositories.group.UserID_UserID := u |}
        ∈ repositories.group.Group_Users found
      <-> repositories.group.IsUserInGroup repositories.group.no_faults
            scenario.groups_db "g1" u = (true, None).
Proof.
  intros found.
  apply (proj1 (GetGroup_agrees_with_checks repositories.group.no_faults
                  scenario.groups_db "acme" "g1") found).
  reflexivity.
Defined.

(** [GetGroups] lists the groups of the tenant and only those, without
    their users: every group returned carries the tenant, an id the tenant
    owns and no user, and every id the tenant owns is the id of a group
    returned. *)
Theorem GetGroups_lists_the_tenant :
  forall (f : repositories.group.Faults) (db : repositories.group.DB)
         (tenant : string) (groups : list repositories.group.Group),
    repositories.group.GetGroups f db tenant = inl groups ->
    (forall found, found ∈ groups ->
        repositories.group.Group_TenantID found = tenant
        /\ repositories.group.Group_Users found = []
        /\ repositories.group.owns db tenant
             (repositories.group.Group_ID found) = true)
    /\ (forall id, repositories.group.owns db tenant id = true ->
           exists found, found ∈ groups
                         /\ repositories.group.Group_ID found = id).
Proof.
  intros f db tenant groups. unfold repositories.group.GetGroups.
  destruct (repositories.group.Query_err f); [discriminate|].
  intros [= <-]. split.
  - intros found Hfound.
    apply list_elem_of_fmap in Hfound as (r & -> & Hr).
    apply list_elem_of_filter in Hr as [Ht Hr].
    apply Is_true_true in Ht. simpl. repeat split.
    + now apply String.eqb_eq.
    + unfold repositories.group.owns. apply existsb_exists. exists r.
      split; [now apply list_elem_of_In|].
      now rewrite Ht, String.eqb_refl.
  - intros id Howns. apply existsb_exists in Howns as (r & Hin & Hr).
    apply andb_prop in Hr as [Ht Hg].
    exists (repositories.group.to_Group r []). split.
    + apply list_elem_of_fmap. exists r. split; [reflexivity|].
      apply list_elem_of_filter. split; [now apply Is_true_true|].
      now apply list_elem_of_In.
    + simpl. now apply String.eqb_eq.
Qed.

Lemma GetGroups_lists_the_tenant_witness :
  let groups :=
    [ {| repositories.group.Group_ID := "g1";
         repositories.group.Group_Key := "auditors";
         repositories.group.Group_Name := "Auditors";
         repositories.group.Group_TenantID := "acme";
         repositories.group.Group_Users := [] |} ] in
  (forall found, found ∈ groups ->
      repositories.group.Group_TenantID found = "acme"
      /\ repositories.group.Group_Users found = []
      /\ repositories.group.owns scenario.groups_db "acme"
           (repositories.group.Group_ID found) = true)
  /\ (forall id, repositories.group.owns scenario.groups_db "acme" id = true ->
         exists found, found ∈ groups
                       /\ repositories.group.Group_ID found = id).
Proof.
  intros groups.
  apply (GetGroups_lists_the_tenant repositories.group.no_faults
           scenario.groups_db "acme" groups).
  reflexivity.
Defined.

(** ** Resource repository: existence checks and the project-wide delete *)

Section ProjectDelete.
Import repositories.resource.

(** The state after the cascades for a list of resources. *)
Lemma cascades_fold (l : list Resource) (db : DB) :
  let db1 :=
    fold_left
      (fun d resource =>
         DeleteAllResourceRoles
           (DeleteAllResourceActions d (Resource_ID resource))
           (Resource_ID resource)) l db in
  resources db1 = resources db
  /\ (forall a, a ∈ resource_actions db1 <->
                a ∈ resource_actions db
                /\ forall r, r ∈ l -> Resource_ID r <> Action_ResourceID a)
  /\ (forall p, p ∈ role_permissions db1 <->
                p ∈ role_permissions db
                /\ forall r, r ∈ l -> Resource_ID r <> Permission_ResourceID p).
Proof.
  revert db. induction l as [|x l IH]; intros db; simpl.
  - split; [reflexivity|]. split; intros y; split; try tauto.
    all: intros Hin; split; [assumption|].
    all: intros r Hr; now apply elem_of_nil in Hr.
  - specialize (IH (DeleteAllResourceRoles
                      (DeleteAllResourceActions db (Resource_ID x))
                      (Resource_ID x))).
    simpl in IH. destruct IH as (Hres & Hact & Hperm).
    split; [exact Hres|]. split.
    + intros a. rewrite Hact. simpl.
      rewrite (elem_of_kept Action_ResourceID). split.
      * intros [[Hne Hin] Hall]. split; [assumption|].
        intros r Hr. apply elem_of_cons in Hr as [->|Hr]; [congruence | auto].
      * intros [Hin Hall]. split; [split; [|assumption]|].
        -- intros Heq. apply (Hall x); [apply list_elem_of_here | congruence].
        -- intros r Hr. apply Hall. now apply list_elem_of_further.
    + intros p. rewrite Hperm. simpl.
      rewrite (elem_of_kept Permission_ResourceID). split.
      * intros [[Hne Hin] Hall]. split; [assumption|].
        intros r Hr. apply elem_of_cons in Hr as [->|Hr]; [congruence | auto].
      * intros [Hin Hall]. split; [split; [|assumption]|].
        -- intros Heq. apply (Hall x); [apply list_elem_of_here | congruence].
        -- intros r Hr. apply Hall. now apply list_elem_of_further.
Qed.

Lemma elem_of_GetResources db proj_id r :
  r ∈ GetResources db proj_id <-> r ∈ resources db /\ Resource_ProjectID r = proj_id.
Proof.
  unfold GetResources. rewrite list_elem_of_filter.
  destruct (String.eqb_spec (Resource_ProjectID r) proj_id); simpl; intuition.
Qed.

End ProjectDelete.

(** [DeleteAllResources] empties a project: afterwards the project has no
    resource and every other resource is kept; the actions and the role
    permissions kept are those that belong to no resource of the project;
    and a database without dangling role permissions stays so. *)
Theorem DeleteAllResources_cascades :
  forall (db : repositories.resource.DB) (proj_id : string),
    let db' := repositories.resource.DeleteAllResources db proj_id in
    (forall r, r ∈ repositories.resource.resources db' <->
               repositories.resource.Resource_ProjectID r <> proj_id
               /\ r ∈ repositories.resource.resources db)
    /\ (forall a, a ∈ repositories.resource.resource_actions db' <->
                  a ∈ repositories.resource.resource_actions db
                  /\ forall r, r ∈ repositories.resource.GetResources db proj_id ->
                               repositories.resource.Resource_ID r
                               <> repositories.resource.Action_ResourceID a)
    /\ (forall p, p ∈ repositories.resource.role_permissions db' <->
                  p ∈ repositories.resource.role_permissions db
                  /\ forall r, r ∈ repositories.resource.GetResources db proj_id ->
                               repositories.resource.Resource_ID r
                               <> repositories.resource.Permission_ResourceID p)
    /\ (repositories.resource.consistent db ->
        repositories.resource.consistent db').
Proof.
  intros db proj_id db'. subst db'.
  unfold repositories.resource.DeleteAllResources.
  destruct (cascades_fold (repositories.resource.GetResources db proj_id) db)
    as (Hres & Hact & Hperm).
  simpl in Hres, Hact, Hperm. simpl.
  assert (forall r,
             r ∈ filter (fun r => negb (String.eqb
                                          (repositories.resource.Resource_ProjectID r)
                                          proj_id))
                        (repositories.resource.resources
                           (fold_left
                              (fun d resource =>
                                 repositories.resource.DeleteAllResourceRoles
                                   (repositories.resource.DeleteAllResourceActions d
                                      (repositories.resource.Resource_ID resource))
                                   (repositories.resource.Resource_ID resource))
                              (repositories.resource.GetResources db proj_id) db))
             <-> repositories.resource.Resource_ProjectID r <> proj_id
                 /\ r ∈ repositories.resource.resources db) as Hkept.
  { intros r. rewrite Hres.
    apply (elem_of_kept repositories.resource.Resource_ProjectID). }
  split; [exact Hkept|]. split; [exact Hact|]. split; [exact Hperm|].
  intros Hcons p Hp. simpl in Hp. apply Hperm in Hp as [Hin Hfree].
  destruct (Hcons p Hin) as [(r & Hr & Hrid) (a & Ha & Haid & Hares)].
  split; simpl.
  - exists r. split; [|assumption]. apply Hkept. split; [|assumption].
    intros Hproj. apply (Hfree r); [|assumption].
    now apply elem_of_GetResources.
  - exists a. split; [|now split]. apply Hact. split; [assumption|].
    intros r' Hr'. rewrite Hares. now apply Hfree.
Qed.

Lemma DeleteAllResources_cascades_witness :
  repositories.resource.consistent
    (repositories.resource.DeleteAllResources scenario.resources_db "p1")
  /\ repositories.resource.DeleteAllResources scenario.resources_db "p1"
     = {| repositories.resource.resources := [];
          repositories.resource.resource_actions := [];
          repositories.resource.role_permissions := [] |}.
Proof.
  split; [|reflexivity].
  apply (proj2 (proj2 (proj2 (DeleteAllResources_cascades
                                scenario.resources_db "p1")))).
  apply consistentb_sound. reflexivity.
Defined.

(** The existence checks.  When the query fails, each answers [false] with
    its own error.  When it does not: a key exists in a project exactly when
    one of the resources [GetResources] lists for the project has it; after
    a [DeleteResource] whose struct carries no key, or the key of the
    resource itself, every argument the database reads as the deleted id is
    answered [false]; and an argument read as any other id is answered as
    before the delete. *)
Theorem resource_existence_checks :
  forall (e : repositories.resource.Engine) (db : repositories.resource.DB),
    (repositories.resource.query_fails e = true ->
     (forall res_id,
         repositories.resource.CheckResourceExistsById e db res_id
         = (false, Some (util.errorString "resource not exists")))
     /\ (forall key proj_id,
            repositories.resource.CheckResourceExistsByKey e db key proj_id
            = (false, Some (util.errorString EmptyString))))
    /\ (repositories.resource.query_fails e = false ->
        (forall key proj_id,
            repositories.resource.CheckResourceExistsByKey e db key proj_id
            = (true, None)
            <-> exists r, r ∈ repositories.resource.GetResources db proj_id
                          /\ repositories.resource.Resource_Key r = key)
        /\ (forall resource res_id id arg,
               repositories.resource.reads e res_id = Some id ->
               repositories.resource.reads e arg = Some id ->
               repositories.resource.Resource_ID resource
               = repositories.resource.no_key
               \/ repositories.resource.Resource_ID resource = id ->
               repositories.resource.CheckResourceExistsById e
                 (repositories.resource.DeleteResource e db resource res_id) arg
               = (false, None))
        /\ (forall resource res_id id arg,
               repositories.resource.reads e arg = Some id ->
               repositories.resource.reads e res_id <> Some id ->
               repositories.resource.CheckResourceExistsById e
                 (repositories.resource.DeleteResource e db resource res_id) arg
               = repositories.resource.CheckResourceExistsById e db arg)).
Proof.
  intros e db. split.
  - intros Hfails.
    unfold repositories.resource.CheckResourceExistsById,
      repositories.resource.CheckResourceExistsByKey.
    now rewrite Hfails.
  - intros Hruns.
    unfold repositories.resource.CheckResourceExistsById,
      repositories.resource.CheckResourceExistsByKey.
    rewrite Hruns. split; [|split].
    + intros key proj_id. split.
      * intros [= Hex]. apply existsb_exists in Hex as (r & Hin & Hr).
        apply andb_prop in Hr as [Hk Hp]. apply String.eqb_eq in Hk, Hp.
        exists r. split; [|assumption]. apply elem_of_GetResources.
        split; [now apply list_elem_of_In | assumption].
      * intros (r & Hin & Hk). apply elem_of_GetResources in Hin as [Hin Hp].
        f_equal. apply existsb_exists. exists r.
        split; [now apply list_elem_of_In|].
        now rewrite Hk, Hp, !String.eqb_refl.
    + intros resource res_id id arg Hres Harg Hkey. rewrite Harg. f_equal.
      apply not_true_is_false. intros Hex.
      apply existsb_exists in Hex as (r & Hin & Hr).
      apply String.eqb_eq in Hr. apply list_elem_of_In in Hin.
      apply (DeleteResource_resources e db resource res_id id r Hres) in Hin
        as [_ Hkept].
      apply Hkept. split; assumption.
    + intros resource res_id id arg Harg Hother. rewrite Harg. f_equal.
      apply eq_true_iff_eq. rewrite !existsb_exists.
      destruct (repositories.resource.reads e res_id) as [id0|] eqn:Hres.
      * split; intros (r & Hin & Hr); exists r; split; try assumption;
          apply list_elem_of_In; apply list_elem_of_In in Hin;
          apply String.eqb_eq in Hr.
        -- now apply (DeleteResource_resources e db resource res_id id0 r Hres)
             in Hin as [Hin _].
        -- apply (DeleteResource_resources e db resource res_id id0 r Hres).
           split; [assumption|]. intros [Heq _]. congruence.
      * now rewrite (DeleteResource_unread e db resource res_id Hres).
Qed.

Lemma resource_existence_checks_witness :
  let failing := {| repositories.resource.reads :=
                      repositories.resource.reads scenario.decimal;
                    repositories.resource.query_fails := true |} in
  let db' := repositories.resource.DeleteResource scenario.decimal
               scenario.resources_db scenario.blank "01" in
  repositories.resource.CheckResourceExistsById failing scenario.resources_db "1"
  = (false, Some (util.errorString "resource not exists"))
  /\ repositories.resource.CheckResourceExistsById scenario.decimal db' "001"
     = (false, None)
  /\ repositories.resource.CheckResourceExistsById scenario.decimal db' "02"
     = repositories.resource.CheckResourceExistsById scenario.decimal
         scenario.resources_db "02".
Proof.
  intros failing db'.
  pose proof (resource_existence_checks failing scenario.resources_db)
    as [Hfails _].
  pose proof (resource_existence_checks scenario.decimal scenario.resources_db)
    as [_ Hruns].
  destruct (Hfails eq_refl) as [Hbyid _].
  destruct (Hruns eq_refl) as (_ & Hgone & Hkept).
  split; [apply Hbyid|]. split.
  - apply (Hgone scenario.blank "01" "1" "001"); [reflexivity | reflexivity |].
    left. reflexivity.
  - apply (Hkept scenario.blank "01" "2" "02"); [reflexivity | discriminate].
Defined.

(** ** Request layer: what the handlers answer *)

(** A body that does not bind is answered 400 by every handler; the service
    is not called and the state behind it is returned as it was. *)
Theorem handlers_refuse_unbound_body :
  forall (St : Type) (service : permission.Service St) (st : St) (org : string),
    permission.create service st org None = (st, util.Fail permission.bad_input)
    /\ permission.patchPermissions service st org None
       = (st, util.Fail permission.bad_input)
    /\ permission.check service st org None = util.Fail permission.bad_input
    /\ permission.delete service st org None = util.Fail permission.bad_input
    /\ permission.getobjectlist service st org None
       = util.Fail permission.bad_input
    /\ permission.getsubjectlist service st org None
       = util.Fail permission.bad_input
    /\ permission.checkbyusername service st org None
       = util.Fail permission.bad_input
    /\ permission.checkpermissions service st org None
       = util.Fail permission.bad_input
    /\ permission.checkall service st org None = util.Fail permission.bad_input
    /\ permission.checkActions service st org None
       = util.Fail permission.bad_input
    /\ permission.acknowledged (st, util.Fail permission.bad_input
                                      : util.outcome permission.response) = false.
Proof. intros St service st org. repeat split. Qed.

(** The step for a handler over a query of the service: split on what the
    service returned. *)
Local Ltac read_handler :=
  let input := fresh "input" in
  let H := fresh "H" in
  intros input;
  match goal with
  | |- context [match ?call with inl _ => _ | inr _ => _ end] => destruct call
  end;
  simpl; split; intros H;
  first [ reflexivity
        | discriminate H
        | solve [eauto]
        | (destruct H as [? H]; discriminate H) ].

(** Apart from [patchPermissions], a handler acknowledges a bound request
    with a success status exactly when the service call succeeded: [create]
    when [CreateTuple] returned no error (and the state is the one the
    service left), the check and list handlers when the service returned a
    value; [checkActions], whose service method cannot fail, always does. *)
Theorem handlers_acknowledge_success_only :
  forall (St : Type) (service : permission.Service St) (st : St) (org : string),
    (forall input,
        fst (permission.create service st org (Some input))
        = fst (permission.CreateTuple service st org "permission" input)
        /\ (permission.acknowledged (permission.create service st org (Some input))
            = true
            <-> snd (permission.CreateTuple service st org "permission" input)
                = None))
    /\ (forall input,
           permission.acknowledged (st, permission.check service st org (Some input))
           = true
           <-> exists allow,
               permission.CheckTuple service st org "permission" input true
               = inl allow)
    /\ (forall input,
           permission.acknowledged (st, permission.delete service st org (Some input))
           = true
           <-> exists allow,
               permission.CheckTuple service st org "permission" input false
               = inl allow)
    /\ (forall input,
           permission.acknowledged
             (st, permission.getobjectlist service st org (Some input)) = true
           <-> exists l,
               permission.GetObjectListBySubject service st org "permission" input
               = inl l)
    /\ (forall input,
           permission.acknowledged
             (st, permission.getsubjectlist service st org (Some input)) = true
           <-> exists l,
               permission.GetSubjectListByObject service st org "permission" input
               = inl l)
    /\ (forall input,
           permission.acknowledged
             (st, permission.checkbyusername service st org (Some input)) = true
           <-> exists allow,
               permission.CheckByUsername service st org "permission" input
               = inl allow)
    /\ (forall input,
           permission.acknowledged
             (st, permission.checkpermissions service st org (Some input)) = true
           <-> exists m,
               permission.CheckPermissions service st org "permission" input
               = inl m)
    /\ (forall input,
           permission.acknowledged
             (st, permission.checkall service st org (Some input)) = true
           <-> exists bs,
               permission.CheckAll service st org "permission" input = inl bs)
    /\ (forall input,
           permission.acknowledged
             (st, permission.checkActions service st org (Some input)) = true).
Proof.
  intros St service st org. unfold permission.acknowledged.
  split.
  { intros input. unfold permission.create.
    destruct (permission.CreateTuple service st org "permission" input)
      as [st' [e|]]; simpl; split; try reflexivity;
      split; intros H; try reflexivity; discriminate H. }
  unfold permission.check, permission.delete, permission.getobjectlist,
    permission.getsubjectlist, permission.checkbyusername,
    permission.checkpermissions, permission.checkall.
  repeat (split; [read_handler|]).
  intros input. reflexivity.
Qed.

(** ** gRPC endpoint with an API key *)

(** With an API key entry in the metadata the endpoint does not panic: it
    calls the service once, for the organization and the three fields of the
    request and with the first value of the entry, and answers the service's
    decision, or the service's error through [HandleError].  Without
    metadata it returns a plain error and does not call the service. *)
Theorem grpc_Check_with_api_key :
  forall (s : check.Service) (req : check.GrpcCheckRequest),
    (forall (md : check.MD) (apiKey : string) (others : list string),
        md !! "api_key" = Some (apiKey :: others) ->
        check.grpc_Check s (Some md) req
        = match check.Check s (check.req_Organization req)
                  {| check.Username := check.req_Username req;
                     check.Action := check.req_Action req;
                     check.Resource := check.req_Resource req |} apiKey with
          | inl allow => util.Return {| check.Allow := allow |}
          | inr err => util.Fail (util.HandleError err)
          end)
    /\ check.grpc_Check s None req
       = util.Fail (util.errorString "missing metadata from request").
Proof.
  intros s req. split; [|reflexivity].
  intros md apiKey others Hkey. unfold check.grpc_Check, check.MD_Get.
  change (check.ToLower "API_KEY") with "api_key". rewrite Hkey. simpl.
  now destruct (check.Check s _ _ apiKey).
Qed.

Lemma grpc_Check_with_api_key_witness :
  let s := {| check.Check := fun org _ key =>
                if String.eqb key "k-acme" then inl true
                else inr (util.UnauthorizedError "API key") |} in
  let req := {| check.req_Organization := "acme"; check.req_Username := "alice";
                check.req_Action := "approve";
                check.req_Resource := "invoices" |} in
  check.grpc_Check s (Some {[ "api_key" := ["k-acme"; "k-other"] ]}) req
  = util.Return {| check.Allow := true |}
  /\ check.grpc_Check s (Some {[ "api_key" := ["k-other"; "k-acme"] ]}) req
     = util.Fail (util.HTTPError 403 "API key").
Proof.
  intros s req. split.
  - apply (proj1 (grpc_Check_with_api_key s req)
             {[ "api_key" := ["k-acme"; "k-other"] ]} "k-acme" ["k-other"]).
    reflexivity.
  - apply (proj1 (grpc_Check_with_api_key s req)
             {[ "api_key" := ["k-other"; "k-acme"] ]} "k-other" ["k-acme"]).
    reflexivity.
Defined.

(** ** Two finer points *)

Section FirstUnknownUser.
Import util mongo_entity role.
Context {Store : Type} (repo : Repository Store).

Lemma check_users_first st org_id msg known u rest :
  Forall (fun v => ~ missing_user repo st org_id v) known ->
  missing_user repo st org_id u ->
  check_users repo st org_id msg (known ++ u :: rest)
  = Some (InvalidInputError (msg +:+ ObjectID_String u)).
Proof.
  unfold missing_user. intros Hknown Hu.
  induction Hknown as [|v known Hv _ IH]; simpl.
  - now rewrite Hu.
  - destruct (fst (CheckUserExistById repo st org_id (Hex v)));
      [exact IH | contradiction].
Qed.

End FirstUnknownUser.

(** The user named in the refusal is the first unknown one in the order of
    the request.  [role.Create], past its two earlier guards, answers
    [InvalidInput] with "Invalid user id" and that user; [role.Update], for
    a role it can read, answers [InvalidInput] with "Invalid role id" and
    the first unknown added user. *)
Theorem role_names_first_unknown_user :
  forall (Store : Type) (repo : role.Repository Store) (st : Store)
         (org_id : string) (known rest : list mongo_entity.ObjectID)
         (u : mongo_entity.ObjectID),
    Forall (fun v => ~ role.missing_user repo st org_id v) known ->
    role.missing_user repo st org_id u ->
    (forall req roleId,
        role.CreateRoleRequest_Users req = known ++ u :: rest ->
        role.CreateRoleRequest_Identifier req <> EmptyString ->
        fst (role.CheckRoleExistsByIdentifier repo st org_id
               (role.CreateRoleRequest_Identifier req)) = false ->
        role.Create repo st org_id req roleId
        = (st, inr (util.InvalidInputError
                      ("Invalid user id " +:+ mongo_entity.ObjectID_String u))))
    /\ (forall id req r,
           role.UpdateRoleRequest_AddedUsers req = known ++ u :: rest ->
           role.repo_Get repo st org_id id = inl r ->
           role.Update repo st org_id id req
           = (st, inr (util.InvalidInputError
                         ("Invalid role id " +:+ mongo_entity.ObjectID_String u)))).
Proof.
  intros Store repo st org_id known rest u Hknown Hu. split.
  - intros req roleId Husers Hid Hfree.
    unfold role.Create, role.CreateRoleRequest_Validate.
    destruct (String.eqb_spec (role.CreateRoleRequest_Identifier req) EmptyString);
      [contradiction|].
    rewrite Hfree, Husers.
    now rewrite (check_users_first repo st org_id _ known u rest Hknown Hu).
  - intros id req r Husers Hget. unfold role.Update, role.Get.
    rewrite Hget, Husers.
    now rewrite (check_users_first repo st org_id _ known u rest Hknown Hu).
Qed.

Lemma role_names_first_unknown_user_witness :
  role.Create store.Repository scenario.st0 "acme"
    {| role.CreateRoleRequest_Identifier := "ops";
       role.CreateRoleRequest_DisplayName := "Operations";
       role.CreateRoleRequest_Users := ["alice"; "ghost"; "phantom"] |} "r9"
  = (scenario.st0,
     inr (util.InvalidInputError
            ("Invalid user id " +:+ mongo_entity.ObjectID_String "ghost")))
  /\ role.Update store.Repository scenario.st0 "acme" "finance"
       {| role.UpdateRoleRequest_DisplayName := None;
          role.UpdateRoleRequest_AddedUsers := ["alice"; "ghost"; "phantom"];
          role.UpdateRoleRequest_RemovedUser := [] |}
     = (scenario.st0,
        inr (util.InvalidInputError
               ("Invalid role id " +:+ mongo_entity.ObjectID_String "ghost"))).
Proof.
  assert (Forall (fun v => ~ role.missing_user store.Repository scenario.st0
                             "acme" v) ["alice"]) as Hknown
      by (repeat constructor; vm_compute; discriminate).
  assert (role.missing_user store.Repository scenario.st0 "acme" "ghost")
    as Hghost by reflexivity.
  pose proof (role_names_first_unknown_user _ store.Repository scenario.st0
                "acme" ["alice"] ["phantom"] "ghost" Hknown Hghost)
    as [Hcreate Hupdate].
  split.
  - apply Hcreate; [reflexivity | discriminate | reflexivity].
  - apply (Hupdate "finance" _ scenario.finance); reflexivity.
Defined.

(** The membership tests of a patch read the database as it was before the
    patch, not the rows the patch has written so far.  Without driver
    faults: adding and then removing a user who was not a member leaves the
    user a member, and removing and then adding a user who was a member
    leaves the user out. *)
Theorem PatchGroup_tests_read_before_patch :
  forall (db : repositories.group.DB) (g u : string),
    let user := {| repositories.group.UserID_UserID := u |} in
    let add := {| repositories.group.Operation := "add";
                  repositories.group.Users := [user] |} in
    let remove := {| repositories.group.Operation := "remove";
                     repositories.group.Users := [user] |} in
    (repositories.group.member db g u = false ->
     repositories.group.PatchGroup repositories.group.no_faults db g
       {| repositories.group.Operations := [add; remove] |}
     = repositories.group.Done
         (repositories.group.with_group_user db
            (repositories.group.group_user db ++ [(g, u)]), None))
    /\ (repositories.group.member db g u = true ->
        repositories.group.PatchGroup repositories.group.no_faults db g
          {| repositories.group.Operations := [remove; add] |}
        = repositories.group.Done
            (repositories.group.with_group_user db
               (filter (fun gu => negb (repositories.group.row_eqb (g, u) gu))
                       (repositories.group.group_user db)), None)).
Proof.
  intros db g u user add remove. split; intros Hm;
    unfold repositories.group.PatchGroup; simpl;
    unfold repositories.group.apply_operation; simpl;
    unfold repositories.group.IsUserInGroup; simpl; rewrite Hm; simpl;
    reflexivity.
Qed.

Lemma PatchGroup_tests_read_before_patch_witness :
  let bob := {| repositories.group.UserID_UserID := "bob" |} in
  let alice := {| repositories.group.UserID_UserID := "alice" |} in
  repositories.group.PatchGroup repositories.group.no_faults
    scenario.groups_db "g1"
    {| repositories.group.Operations :=
         [ {| repositories.group.Operation := "add";
              repositories.group.Users := [bob] |};
           {| repositories.group.Operation := "remove";
              repositories.group.Users := [bob] |} ] |}
  = repositories.group.Done
      (repositories.group.with_group_user scenario.groups_db
         (repositories.group.group_user scenario.groups_db ++ [("g1", "bob")]),
       None)
  /\ repositories.group.PatchGroup repositories.group.no_faults
       scenario.groups_db "g1"
       {| repositories.group.Operations :=
            [ {| repositories.group.Operation := "remove";
                 repositories.group.Users := [alice] |};
              {| repositories.group.Operation := "add";
                 repositories.group.Users := [alice] |} ] |}
     = repositories.group.Done
         (repositories.group.with_group_user scenario.groups_db
            (filter (fun gu => negb (repositories.group.row_eqb ("g1", "alice") gu))
                    (repositories.group.group_user scenario.groups_db)),
          None).
Proof.
  intros bob alice. split.
  - apply (proj1 (PatchGroup_tests_read_before_patch scenario.groups_db "g1" "bob")).
    reflexivity.
  - apply (proj2 (PatchGroup_tests_read_before_patch scenario.groups_db "g1" "alice")).
    reflexivity.
Defined.
